(** * chartink-webhook: the alert normalizer, the workbook writer and the
      webhook endpoint of [chartink_webhook_server.py]

    A shallow embedding of the server's request path and the properties of
    it that the design document states.

    Conventions of the embedding.
    - Text is ASCII: a Python [str] is a [string] whose characters are code
      points below 128, where [str.strip], [str.upper] and the digit test
      are the functions written here.
    - A Python [float] is a binary64 value, [spec_float] of the standard
      library, and [float(...)] rounds the decimal literal to nearest even.
    - A [dict] keeps its insertion order, so it is an association list with
      pairwise distinct keys.
    - The libraries the server calls (openpyxl, pandas, the Drive client,
      Flask) are not part of the repository.  Their deterministic effect on
      the sheet list is written out, with the title openpyxl gives to a new
      sheet when the requested one is in use and the number type pandas
      gives to a column; whether one of their calls raises is read from an
      environment that the theorems quantify over. *)

From Stdlib Require Import ZArith List Bool Ascii String Lia.
From Stdlib Require Import DecimalString DecimalZ SpecFloat.
Import ListNotations.

#[local] Open Scope string_scope.
#[local] Open Scope list_scope.

(** ** Python [str] methods *)

(** [str.isspace] on ASCII: TAB, LF, VT, FF, CR, FS, GS, RS, US and SPACE. *)
Definition is_space (c : ascii) : bool :=
  let n := nat_of_ascii c in
  ((9 <=? n) && (n <=? 13) || (28 <=? n) && (n <=? 32))%nat.

Definition is_digit (c : ascii) : bool :=
  let n := nat_of_ascii c in ((48 <=? n) && (n <=? 57))%nat.

Definition upper_char (c : ascii) : ascii :=
  let n := nat_of_ascii c in
  if ((97 <=? n) && (n <=? 122))%nat then ascii_of_nat (n - 32) else c.

Definition is_lower_char (c : ascii) : bool :=
  let n := nat_of_ascii c in ((97 <=? n) && (n <=? 122))%nat.

Fixpoint upper (s : string) : string :=
  match s with
  | EmptyString => EmptyString
  | String c r => String (upper_char c) (upper r)
  end.

Definition lower_char (c : ascii) : ascii :=
  let n := nat_of_ascii c in
  if ((65 <=? n) && (n <=? 90))%nat then ascii_of_nat (n + 32) else c.

Fixpoint lower (s : string) : string :=
  match s with
  | EmptyString => EmptyString
  | String c r => String (lower_char c) (lower r)
  end.

(** [s[n:]] *)
Fixpoint drop (n : nat) (s : string) : string :=
  match n, s with
  | S k, String _ r => drop k r
  | _, _ => s
  end.

Fixpoint lstrip (s : string) : string :=
  match s with
  | EmptyString => EmptyString
  | String c r => if is_space c then lstrip r else s
  end.

Fixpoint rstrip (s : string) : string :=
  match s with
  | EmptyString => EmptyString
  | String c r =>
      match rstrip r with
      | EmptyString => if is_space c then EmptyString else String c EmptyString
      | r' => String c r'
      end
  end.

(** [s.strip()] *)
Definition strip (s : string) : string := rstrip (lstrip s).

(** [s.startswith(p)] *)
Definition startswith (p s : string) : bool := prefix p s.

(** [s.replace(old, new)] for a non-empty [old]: occurrences are found from
    the left and do not overlap; [skip] counts the characters of the
    occurrence just matched that are still to be passed over. *)
Fixpoint replace_from (old new : string) (skip : nat) (s : string) : string :=
  match s with
  | EmptyString => EmptyString
  | String c r =>
      match skip with
      | S k => replace_from old new k r
      | O =>
          if prefix old s
          then new ++ replace_from old new (length old - 1) r
          else String c (replace_from old new 0 r)
      end
  end.

Definition replace (old new s : string) : string := replace_from old new 0 s.

(** [s.split(sep)] for a non-empty [sep]; the head of the result is the
    piece under construction, so the result is never empty. *)
Fixpoint split_from (sep : string) (skip : nat) (s : string) : list string :=
  match s with
  | EmptyString => [EmptyString]
  | String c r =>
      match skip with
      | S k => split_from sep k r
      | O =>
          if prefix sep s
          then EmptyString :: split_from sep (length sep - 1) r
          else match split_from sep 0 r with
               | p :: ps => String c p :: ps
               | [] => [String c EmptyString]
               end
      end
  end.

Definition split (sep s : string) : list string := split_from sep 0 s.

(** [sep.join(l)] *)
Definition join (sep : string) (l : list string) : string := concat sep l.

(** ** Python numbers *)

(** A run of digits in which single underscores may separate digits
    ([digitpart] of the language reference); the result is the run without
    its underscores. *)
Fixpoint digitpart_from (prev_digit : bool) (s : string) : option string :=
  match s with
  | EmptyString => if prev_digit then Some EmptyString else None
  | String c r =>
      if is_digit c then option_map (String c) (digitpart_from true r)
      else if Ascii.eqb c "_" && prev_digit then
        match r with
        | String c' _ => if is_digit c' then digitpart_from false r else None
        | EmptyString => None
        end
      else None
  end.

Definition digitpart (s : string) : option string := digitpart_from false s.

(** The value of a run of digits. *)
Definition digits_value (ds : string) : option Z :=
  option_map Z.of_uint (NilEmpty.uint_of_string ds).

(** An optional sign in front of the rest. *)
Definition take_sign (s : string) : bool * string :=
  match s with
  | String "-" r => (true, r)
  | String "+" r => (false, r)
  | _ => (false, s)
  end.

(** [int(s)] in base ten; [None] is [ValueError].  (The interpreter's cap on
    the number of digits, configurable and absent before 3.11, is left
    out: it only turns very long digit runs into [ValueError].) *)
Definition py_int (s : string) : option Z :=
  let '(neg, body) := take_sign (strip s) in
  match digitpart body with
  | Some ds =>
      match digits_value ds with
      | Some n => Some (if neg then (- n)%Z else n)
      | None => None
      end
  | None => None
  end.

(** [str(n)] for an integer. *)
Definition py_str_int (n : Z) : string := NilZero.string_of_int (Z.to_int n).

Definition float := spec_float.

(** The binary64 value nearest to [m * 10^e10] (ties to even), [m > 0].  The
    quotient is taken at the weight of the smallest subnormal, with the
    position of the remainder against one half, and rounded. *)
Definition binary64_of_decimal (neg : bool) (m e10 : Z) : float :=
  if (m =? 0)%Z then S754_zero neg
  else
    let n := (m * 2 ^ 1074 * 10 ^ Z.max e10 0)%Z in
    let d := (10 ^ Z.max (- e10) 0)%Z in
    let q := (n / d)%Z in
    let r := (n mod d)%Z in
    let loc := if (r =? 0)%Z then loc_Exact
               else loc_Inexact (Z.compare (2 * r) d) in
    binary_round_aux 53 1024 neg q (-1074)%Z loc.

(** The first position of a character that satisfies [p] cuts the string in
    the part before it and the part after it. *)
Fixpoint cut_at (p : ascii -> bool) (s : string) : string * option string :=
  match s with
  | EmptyString => (EmptyString, None)
  | String c r =>
      if p c then (EmptyString, Some r)
      else let '(a, b) := cut_at p r in (String c a, b)
  end.

(** A digit run that may be empty. *)
Definition opt_digitpart (s : string) : option string :=
  match s with
  | EmptyString => Some EmptyString
  | _ => digitpart s
  end.

(** The mantissa [number] of a float literal: its digits and the number of
    them after the point. *)
Definition float_mantissa (s : string) : option (string * nat) :=
  match cut_at (Ascii.eqb ".") s with
  | (ip, None) => option_map (fun ds => (ds, 0)) (digitpart ip)
  | (ip, Some fp) =>
      match opt_digitpart ip, opt_digitpart fp with
      | Some i, Some f =>
          match (i ++ f)%string with
          | EmptyString => None
          | ds => Some (ds, length f)
          end
      | _, _ => None
      end
  end.

Definition float_exponent (s : option string) : option Z :=
  match s with
  | None => Some 0%Z
  | Some e =>
      let '(neg, body) := take_sign e in
      match digitpart body with
      | Some ds => option_map (fun n => if neg then (- n)%Z else n)
                     (digits_value ds)
      | None => None
      end
  end.

(** [float(s)]; [None] is [ValueError]. *)
Definition py_float (s : string) : option float :=
  let '(neg, body) := take_sign (strip s) in
  let u := upper body in
  if (u =? "INF") || (u =? "INFINITY") then Some (S754_infinity neg)
  else if u =? "NAN" then Some S754_nan
  else
    let '(mant, ex) := cut_at (fun c => Ascii.eqb (upper_char c) "E") body in
    match float_mantissa mant, float_exponent ex with
    | Some (ds, nfrac), Some e =>
        match digits_value ds with
        | Some m => Some (binary64_of_decimal neg m (e - Z.of_nat nfrac))
        | None => None
        end
    | _, _ => None
    end.

(** ** Python values *)

#[local] Set Warnings "-register-all".

(** The values a decoded JSON body or a form can hold. *)
Inductive pyval : Type :=
| PNone
| PBool (b : bool)
| PInt (n : Z)
| PFloat (x : float)
| PStr (s : string)
| PList (l : list pyval)
| PDict (d : list (string * pyval)).

Definition dict := list (string * pyval).

(** [d[k]] when [k in d]. *)
Fixpoint dict_get (d : dict) (k : string) : option pyval :=
  match d with
  | [] => None
  | (k', v) :: r => if k' =? k then Some v else dict_get r k
  end.

(** [d.get(k, default)] *)
Definition dict_get_default (d : dict) (k : string) (default : pyval) : pyval :=
  match dict_get d k with
  | Some v => v
  | None => default
  end.

Definition dict_keys (d : dict) : list string := map fst d.
Definition dict_values (d : dict) : list pyval := map snd d.

(** Truth value of an object, as [if x] and [x or y] test it. *)
Definition truthy (v : pyval) : bool :=
  match v with
  | PNone => false
  | PBool b => b
  | PInt n => negb (n =? 0)%Z
  | PFloat (S754_zero _) => false
  | PFloat _ => true
  | PStr s => negb (s =? EmptyString)
  | PList l => match l with [] => false | _ => true end
  | PDict d => match d with [] => false | _ => true end
  end.

Fixpoint chars (s : string) : list pyval :=
  match s with
  | EmptyString => []
  | String c r => PStr (String c EmptyString) :: chars r
  end.

(** What [for x in v] runs through; [None] is the [TypeError] of an object
    that is not iterable.  A dict is iterated by its keys. *)
Definition iterate (v : pyval) : option (list pyval) :=
  match v with
  | PList l => Some l
  | PDict d => Some (map PStr (dict_keys d))
  | PStr s => Some (chars s)
  | PNone | PBool _ | PInt _ | PFloat _ => None
  end.

(** A call into a library either returns or raises; [e] is [str(e)]. *)
Inductive outcome (A : Type) : Type :=
| Returns (a : A)
| Raises (e : string).
Arguments Returns {A} a.
Arguments Raises {A} e.

(** ** The workbook file (openpyxl) *)

Record sheet : Type := { title : string; rows : list (list pyval) }.

(** A workbook is its sheets in order. *)
Definition Workbook := list sheet.

Definition sheetnames (wb : Workbook) : list string := map title wb.

(** [name in workbook.sheetnames] *)
Definition has_sheet (name : string) (wb : Workbook) : bool :=
  existsb (String.eqb name) (sheetnames wb).

(** [workbook.remove(workbook[name])]: the first sheet of that title goes. *)
Fixpoint remove_sheet (name : string) (wb : Workbook) : Workbook :=
  match wb with
  | [] => []
  | s :: r => if title s =? name then r else s :: remove_sheet name r
  end.

(** [openpyxl.Workbook()] *)
Definition new_workbook : Workbook := [{| title := "Sheet"; rows := [] |}].

(** [workbook.active] of a workbook just made. *)
Definition active (wb : Workbook) : string :=
  match wb with
  | s :: _ => title s
  | [] => EmptyString
  end.

(** What is at the path [excel_file]. *)
Inductive file_state : Type :=
| Absent
| Unreadable (e : string)
| Stored (wb : Workbook).

(** [os.path.exists(excel_file)] *)
Definition path_exists (f : file_state) : bool :=
  match f with
  | Absent => false
  | _ => true
  end.

Definition load_workbook (f : file_state) : outcome Workbook :=
  match f with
  | Stored wb => Returns wb
  | Unreadable e => Raises e
  | Absent => Raises "No such file or directory"
  end.

(** [workbook.save(path)]: it writes the file, or raises and leaves
    something at the path. *)
Inductive save_outcome : Type :=
| SaveOk
| SaveFails (e : string) (remains : file_state).

(** ** ChartinkWebhookHandler.get_next_iteration_number *)

(** [int(sheet.split('_')[1])]; [None] stands for the [IndexError] and the
    [ValueError] that the loop skips. *)
Definition sheet_number (sheet : string) : option Z :=
  match nth_error (split "_" sheet) 1 with
  | Some tok => py_int tok
  | None => None
  end.

Definition collect_numbers (iteration_sheets : list string) : list Z :=
  fold_left
    (fun numbers sheet =>
       match sheet_number sheet with
       | Some n => numbers ++ [n]
       | None => numbers
       end)
    iteration_sheets [].

(** [max(numbers)] of a non-empty list. *)
Definition py_max (n : Z) (ns : list Z) : Z := fold_left Z.max ns n.

Definition get_next_iteration_number (excel_file : file_state) : Z :=
  if negb (path_exists excel_file) then 1%Z
  else
    match load_workbook excel_file with
    | Raises _ => 1%Z
    | Returns workbook =>
        let iteration_sheets :=
          filter (startswith "Iteration_") (sheetnames workbook) in
        match iteration_sheets with
        | [] => 1%Z
        | _ =>
            match collect_numbers iteration_sheets with
            | [] => 1%Z
            | n :: ns => (py_max n ns + 1)%Z
            end
        end
    end.

(** ** The title of a new sheet (openpyxl) *)

(** The run of digits at the head of [s], and what follows it. *)
Fixpoint take_digits (s : string) : string * string :=
  match s with
  | EmptyString => (EmptyString, EmptyString)
  | String c r =>
      if is_digit c
      then let '(count, rest) := take_digits r in (String c count, rest)
      else (EmptyString, s)
  end.

(** [re.findall] of the pattern made of [value] in any letter case, a run
    of digits and an optional comma, over the titles joined by commas: the
    run of digits of each match, from the left, the matches not
    overlapping.  [value] is not empty; [skip] counts the characters of the
    match just made that are still to be passed over. *)
Fixpoint title_counts (value : string) (skip : nat) (names : string)
  : list string :=
  match names with
  | EmptyString => []
  | String c r =>
      match skip with
      | S k => title_counts value k r
      | O =>
          if prefix (lower value) (lower names) then
            let '(count, rest) := take_digits (drop (length value) names) in
            let comma := match rest with
                         | String "," _ => 1
                         | _ => 0
                         end in
            count
            :: title_counts value (length value + length count + comma - 1) r
          else title_counts value 0 r
      end
  end.

(** [avoid_duplicate_name(names, value)]: the title a sheet gets when
    [value] is asked for.  A title is in use when a sheet bears it up to
    letter case; the sheet is then given [value] followed by one more than
    the highest count found behind [value] in the titles. *)
Definition avoid_duplicate_name (names : list string) (value : string)
  : string :=
  if existsb (fun n => lower n =? lower value) names then
    match title_counts value 0 (join "," names) with
    | [] => value
    | matches =>
        let counts :=
          flat_map (fun idx =>
                      match idx with
                      | EmptyString => []
                      | _ => match digits_value idx with
                             | Some n => [n]
                             | None => []
                             end
                      end) matches in
        let highest := match counts with
                       | [] => 0%Z
                       | n :: ns => py_max n ns
                       end in
        (value ++ py_str_int (highest + 1))%string
    end
  else value.

(** [workbook.create_sheet(title)] followed by [append] of each row: the new
    sheet is the last one, under the title the library gives it. *)
Definition create_sheet (name : string) (content : list (list pyval))
    (wb : Workbook) : Workbook :=
  wb ++ [{| title := avoid_duplicate_name (sheetnames wb) name;
            rows := content |}].

(** ** ChartinkWebhookHandler.extract_stocks_from_alert *)

Definition clean (stock : string) : string :=
  replace ".NS" EmptyString (replace "NSE:" EmptyString (upper (strip stock))).

(** One turn of the loop over [stocks]. *)
Definition clean_step (cleaned_stocks : list string) (stock : pyval)
  : list string :=
  match stock with
  | PStr s =>
      let clean_stock := clean s in
      if negb (clean_stock =? EmptyString) && (length clean_stock <=? 20)%nat
      then cleaned_stocks ++ [clean_stock]
      else cleaned_stocks
  | _ => cleaned_stocks
  end.

Definition clean_loop (stocks : list pyval) : list string :=
  fold_left clean_step stocks [].

Definition extract_stocks_from_alert (alert_data : pyval) : list string :=
  match alert_data with
  | PDict d =>
      match dict_get d "stocks" with
      | Some (PStr s) => clean_loop (map PStr (map strip (split "," s)))
      | Some stocks =>
          match iterate stocks with
          | Some l => clean_loop l
          | None => []
          end
      | None => []
      end
  | _ => []
  end.

(** ** The server's state and its surroundings *)

(** The fields of a [GoogleDriveHandler]; [service] tells whether the client
    object was built. *)
Record drive_state : Type := {
  service : bool;
  folder_id : option string
}.

(** The fields of a [ChartinkWebhookHandler]. *)
Record handler_state : Type := {
  excel_file : string;
  use_google_drive : bool;
  drive_handler : option drive_state;
  current_iteration : Z
}.

(** The lines the Drive code prints. *)
Inductive log_line : Type :=
| LogDriveDisabled
| LogDriveInitialized
| LogDriveInitError (e : string)
| LogFolderFound (name : string)
| LogFolderCreated (name : string)
| LogFolderError (e : string)
| LogFileUpdated (name : string)
| LogFileUploaded (name : string)
| LogUploadError (e : string).

(** The requests to the remote store that went through and changed it. *)
Inductive remote_call : Type :=
| FolderCreate (name : string)
| FileUpdate (file_id : string)
| FileCreate (name : string) (parents : list string).

Record world : Type := {
  handler : handler_state;
  disk : file_state;
  console : list log_line;
  remote : list remote_call
}.

Definition set_disk (f : file_state) (w : world) : world :=
  {| handler := handler w; disk := f;
     console := console w; remote := remote w |}.

Definition print (l : log_line) (w : world) : world :=
  {| handler := handler w; disk := disk w;
     console := console w ++ [l]; remote := remote w |}.

Definition sent (c : remote_call) (w : world) : world :=
  {| handler := handler w; disk := disk w;
     console := console w; remote := remote w ++ [c] |}.

Definition set_drive (d : drive_state) (w : world) : world :=
  let h := handler w in
  {| handler := {| excel_file := excel_file h;
                   use_google_drive := use_google_drive h;
                   drive_handler := Some d;
                   current_iteration := current_iteration h |};
     disk := disk w; console := console w; remote := remote w |}.

Definition set_iteration (n : Z) (w : world) : world :=
  let h := handler w in
  {| handler := {| excel_file := excel_file h;
                   use_google_drive := use_google_drive h;
                   drive_handler := drive_handler h;
                   current_iteration := n |};
     disk := disk w; console := console w; remote := remote w |}.

(** [datetime.now()] as the three renderings the writer takes of it. *)
Record clock : Type := {
  strftime_HM_p : string;    (* "%H:%M %p" *)
  strftime_Ymd : string;     (* "%Y-%m-%d" *)
  strftime_HMS : string      (* "%H:%M:%S" *)
}.

(** What the Drive client answers during one upload.  A list answer is the
    ids of the files found, in order. *)
Record drive_api : Type := {
  folders_list : outcome (list string);
  folders_create : outcome (option string);
  files_list : outcome (list string);
  media_file_upload : outcome unit;
  files_update : outcome (option string);
  files_create : outcome (option string)
}.

(** What surrounds one request. *)
Record environment : Type := {
  now : clock;
  baseline_save : save_outcome;      (* the save of a workbook just created *)
  sheet_fault : option string;       (* openpyxl refusing the sheet or a cell *)
  final_save : save_outcome;         (* the save after the sheet is written *)
  drive : drive_api
}.

(** Truth value of [self.folder_id]. *)
Definition folder_known (d : drive_state) : bool :=
  match folder_id d with
  | Some i => negb (i =? EmptyString)
  | None => false
  end.

(** ** GoogleDriveHandler *)

Definition folder_name : string := "Chartink_Data".

(** [create_or_get_folder]: the id it returns and the state it leaves. *)
Definition create_or_get_folder (api : drive_api) (d : drive_state) (w : world)
  : option string * drive_state * world :=
  if negb (service d) then (None, d, w)
  else
    match folders_list api with
    | Raises e => (None, d, print (LogFolderError e) w)
    | Returns (i :: _) =>
        (Some i, {| service := service d; folder_id := Some i |},
         print (LogFolderFound folder_name) w)
    | Returns [] =>
        match folders_create api with
        | Raises e => (None, d, print (LogFolderError e) w)
        | Returns i =>
            (i, {| service := service d; folder_id := i |},
             print (LogFolderCreated folder_name)
               (sent (FolderCreate folder_name) w))
        end
    end.

(** [upload_file(file_path)], with [file_name] the base name of the path. *)
Definition upload_file (api : drive_api) (file_name : string)
    (d : drive_state) (w : world) : option string * drive_state * world :=
  if negb (service d) then (None, d, w)
  else
    let '(d, w) :=
      if negb (folder_known d)
      then let '(_, d', w') := create_or_get_folder api d w in (d', w')
      else (d, w) in
    match files_list api with
    | Raises e => (None, d, print (LogUploadError e) w)
    | Returns existing_files =>
        let parents := if folder_known d
                       then match folder_id d with
                            | Some i => [i]
                            | None => []
                            end
                       else [] in
        match media_file_upload api with
        | Raises e => (None, d, print (LogUploadError e) w)
        | Returns _ =>
            match existing_files with
            | file_id :: _ =>
                match files_update api with
                | Raises e => (None, d, print (LogUploadError e) w)
                | Returns i =>
                    (i, d, print (LogFileUpdated file_name)
                             (sent (FileUpdate file_id) w))
                end
            | [] =>
                match files_create api with
                | Raises e => (None, d, print (LogUploadError e) w)
                | Returns i =>
                    (i, d, print (LogFileUploaded file_name)
                             (sent (FileCreate file_name parents) w))
                end
            end
        end
    end.

(** [initialize_drive]: whether the credential file is there and whether
    the client could be built from it. *)
Record startup_environment : Type := {
  credentials_exist : bool;
  build_service : outcome unit
}.

Definition initialize_drive (s : startup_environment)
  : drive_state * list log_line :=
  if negb (credentials_exist s)
  then ({| service := false; folder_id := None |}, [LogDriveDisabled])
  else
    match build_service s with
    | Returns _ =>
        ({| service := true; folder_id := None |}, [LogDriveInitialized])
    | Raises e =>
        ({| service := false; folder_id := None |}, [LogDriveInitError e])
    end.

(** ** ChartinkWebhookHandler.add_stocks_to_excel *)

(** A list comprehension whose body may raise. *)
Fixpoint all_or_none {A B : Type} (f : A -> option B) (l : list A)
  : option (list B) :=
  match l with
  | [] => Some []
  | a :: r =>
      match f a with
      | Some b => option_map (cons b) (all_or_none f r)
      | None => None
      end
  end.

(** Lines 207-212: the prices, or none of them if one does not parse. *)
Definition parse_trigger_prices (alert_data : dict) : list float :=
  match dict_get alert_data "trigger_prices" with
  | Some (PStr s) =>
      match all_or_none (fun p => py_float (strip p)) (split "," s) with
      | Some trigger_prices => trigger_prices
      | None => []
      end
  | _ => []
  end.

(** The dict appended to [stock_data] for the symbol at position [i]. *)
Definition stock_entry (alert_data : dict) (current_time : clock)
    (iteration : Z) (trigger_prices : list float) (i : nat) (stock : string)
  : dict :=
  let trigger_price :=
    match nth_error trigger_prices (i - 1) with
    | Some p => PFloat p
    | None => PInt 0
    end in
  [ ("Sr_No", PInt (Z.of_nat i));
    ("Stock_Symbol", PStr stock);
    ("Trigger_Price", trigger_price);
    ("Scan_Name", dict_get_default alert_data "scan_name" (PStr "Unknown"));
    ("Alert_Name",
       dict_get_default alert_data "alert_name" (PStr "Chartink Alert"));
    ("Triggered_At",
       dict_get_default alert_data "triggered_at"
         (PStr (strftime_HM_p current_time)));
    ("Date_Added", PStr (strftime_Ymd current_time));
    ("Iteration", PInt iteration);
    ("Alert_Time", PStr (strftime_HMS current_time));
    ("Scan_URL", dict_get_default alert_data "scan_url" (PStr EmptyString)) ].

(** [for i, stock in enumerate(stocks, i)] *)
Fixpoint enumerate_entries (alert_data : dict) (current_time : clock)
    (iteration : Z) (trigger_prices : list float) (i : nat)
    (stocks : list string) : list dict :=
  match stocks with
  | [] => []
  | stock :: r =>
      stock_entry alert_data current_time iteration trigger_prices i stock
      :: enumerate_entries alert_data current_time iteration trigger_prices
           (S i) r
  end.

Definition build_stock_data (alert_data : dict) (current_time : clock)
    (iteration : Z) (stocks : list string) : list dict :=
  enumerate_entries alert_data current_time iteration
    (parse_trigger_prices alert_data) 1 stocks.

(** [float(n)] of an integer. *)
Definition float_of_int (n : Z) : float :=
  binary64_of_decimal (n <? 0)%Z (Z.abs n) 0.

Definition is_float_price (entry : dict) : bool :=
  match dict_get entry "Trigger_Price" with
  | Some (PFloat _) => true
  | _ => false
  end.

(** A cell of [pd.DataFrame(stock_data)].  pandas gives a column one number
    type: when a price of the alert is a float, the column Trigger_Price is
    a column of floats, and the integer 0 of a symbol without a price is
    held as the float 0.0.  The other columns hold values of one type
    each. *)
Definition frame_cell (float_prices : bool) (column : string) (v : pyval)
  : pyval :=
  match v with
  | PInt n =>
      if float_prices && (column =? "Trigger_Price")
      then PFloat (float_of_int n)
      else v
  | _ => v
  end.

(** [row.tolist()] of a row of [df.iterrows()]. *)
Definition frame_row (float_prices : bool) (entry : dict) : list pyval :=
  map (fun kv => frame_cell float_prices (fst kv) (snd kv)) entry.

(** The rows written to the sheet: [df.columns], then the cells of each row
    of the frame. *)
Definition sheet_rows (stock_data : list dict) : list (list pyval) :=
  match stock_data with
  | [] => [[]]
  | first :: _ =>
      map PStr (dict_keys first)
      :: map (frame_row (existsb is_float_price stock_data)) stock_data
  end.

Definition master_headers : list pyval :=
  [PStr "Stock_Symbol"; PStr "First_Appearance_Date"; PStr "First_Iteration";
   PStr "Total_Appearances"; PStr "Last_Updated"].

(** The workbook of lines 236-245. *)
Definition baseline_workbook : Workbook :=
  let workbook := new_workbook in
  let workbook := remove_sheet (active workbook) workbook in
  let workbook := create_sheet "Master_List" [master_headers] workbook in
  create_sheet "TradingView_Export" [[PStr "TradingView_Symbols"]] workbook.

Definition sheet_name_of (iteration : Z) : string :=
  "Iteration_" ++ py_str_int iteration.

Definition error_result (e : string) : pyval :=
  PDict [("status", PStr "error"); ("message", PStr e)].

Definition success_result (stocks : list string) (iteration : Z) : pyval :=
  PDict [("status", PStr "success");
         ("message",
            PStr ("Added " ++ py_str_int (Z.of_nat (List.length stocks))
                  ++ " stocks to iteration " ++ py_str_int iteration));
         ("stocks", PList (map PStr stocks));
         ("iteration", PInt iteration)].

(** Lines 233-248: the workbook to write into. *)
Definition open_workbook (env : environment) (w : world)
  : outcome Workbook * world :=
  if negb (path_exists (disk w)) then
    match baseline_save env with
    | SaveOk => (Returns baseline_workbook, set_disk (Stored baseline_workbook) w)
    | SaveFails e remains => (Raises e, set_disk remains w)
    end
  else (load_workbook (disk w), w).

(** Lines 249-255: the sheet of this iteration replaces the one of the same
    name. *)
Definition write_iteration_sheet (sheet_name : string)
    (stock_data : list dict) (workbook : Workbook) : Workbook :=
  let workbook :=
    if has_sheet sheet_name workbook
    then remove_sheet sheet_name workbook
    else workbook in
  create_sheet sheet_name (sheet_rows stock_data) workbook.

(** Lines 258-260. *)
Definition upload_if_enabled (env : environment) (w : world) : world :=
  let h := handler w in
  match drive_handler h with
  | Some d =>
      if use_google_drive h && service d
      then let '(_, d', w') := upload_file (drive env) (excel_file h) d w in
           set_drive d' w'
      else w
  | None => w
  end.

Definition add_stocks_to_excel (env : environment) (stocks : list string)
    (alert_data : dict) (w : world) : pyval * world :=
  let iteration := current_iteration (handler w) in
  let stock_data := build_stock_data alert_data (now env) iteration stocks in
  match open_workbook env w with
  | (Raises e, w) => (error_result e, w)
  | (Returns workbook, w) =>
      let sheet_name := sheet_name_of iteration in
      match sheet_fault env with
      | Some e => (error_result e, w)
      | None =>
          let workbook := write_iteration_sheet sheet_name stock_data workbook in
          match final_save env with
          | SaveFails e remains => (error_result e, set_disk remains w)
          | SaveOk =>
              let w := set_disk (Stored workbook) w in
              let w := upload_if_enabled env w in
              let w := set_iteration (current_iteration (handler w) + 1) w in
              (success_result stocks (current_iteration (handler w) - 1), w)
          end
      end
  end.

(** ** ChartinkWebhookHandler.process_chartink_alert *)

Definition no_stocks_result : pyval := error_result "No stocks found in alert".

(** Only a dict yields symbols, so the writer is reached with a dict. *)
Definition process_chartink_alert (env : environment) (alert_data : pyval)
    (w : world) : pyval * world :=
  match extract_stocks_from_alert alert_data, alert_data with
  | (_ :: _) as stocks, PDict d => add_stocks_to_excel env stocks d w
  | _, _ => (no_stocks_result, w)
  end.

(** ** The webhook endpoint *)

(** What Flask hands over: [request.get_json()], which returns the decoded
    body ([None] when there is none) or raises, and [request.form]. *)
Record request : Type := {
  get_json : outcome pyval;
  form : list (string * string)
}.

(** A POST with an empty body: [request.get_json()] raises, an empty body
    not being JSON, and there is no form field; [e] is the text of the
    exception. *)
Definition empty_post (e : string) : request :=
  {| get_json := Raises e; form := [] |}.

Definition form_to_dict (f : list (string * string)) : pyval :=
  PDict (map (fun kv => (fst kv, PStr (snd kv))) f).

Definition is_success (result : pyval) : bool :=
  match result with
  | PDict d =>
      match dict_get d "status" with
      | Some (PStr s) => s =? "success"
      | _ => false
      end
  | _ => false
  end.

Definition no_data_result : pyval := error_result "No data received".

(** [chartink_webhook]: the JSON body and the status code. *)
Definition chartink_webhook (env : environment) (req : request) (w : world)
  : pyval * Z * world :=
  match get_json req with
  | Raises e => (error_result e, 500%Z, w)
  | Returns j =>
      let alert_data := if truthy j then j else form_to_dict (form req) in
      if negb (truthy alert_data) then (no_data_result, 400%Z, w)
      else
        let '(result, w') := process_chartink_alert env alert_data w in
        let status_code := if is_success result then 200%Z else 400%Z in
        (result, status_code, w')
  end.

(** Module start: the two handlers are built, the counter is read from the
    file. *)
Definition startup (s : startup_environment) (f : file_state) : world :=
  let '(d, lines) := initialize_drive s in
  {| handler := {| excel_file := "Chartink_Workflow.xlsx";
                   use_google_drive := true;
                   drive_handler := Some d;
                   current_iteration := get_next_iteration_number f |};
     disk := f; console := lines; remote := [] |}.

(** ** The download endpoint and the port *)

(** What [download_excel] answers: the file as an attachment, or a JSON body
    with a status code. *)
Inductive download_response : Type :=
| Attachment (content : file_state) (download_name mimetype : string)
| Json (body : pyval) (code : Z).

(** [download_excel]; the path it reads is the one the module's handler
    writes.  [send_file] either builds the response or raises. *)
Definition download_excel (send_file : outcome unit) (excel_file : file_state)
  : download_response :=
  if path_exists excel_file then
    match send_file with
    | Returns _ =>
        Attachment excel_file "Chartink_Workflow.xlsx"
          "application/vnd.openxmlformats-officedocument.spreadsheetml.sheet"
    | Raises e => Json (error_result e) 500%Z
    end
  else Json (error_result "Excel file not found") 404%Z.


(** ** Notions the statements use *)

(** Every character of [s] satisfies [p]. *)
Fixpoint all_chars (p : ascii -> bool) (s : string) : bool :=
  match s with
  | EmptyString => true
  | String c r => p c && all_chars p r
  end.

(** Character [a] does not occur in [s]. *)
Definition char_free (a : ascii) (s : string) : bool :=
  all_chars (fun c => negb (Ascii.eqb c a)) s.

Definition comma_free (s : string) : bool := char_free "," s.

Definition no_lowercase (s : string) : bool :=
  all_chars (fun c => negb (is_lower_char c)) s.

(** Neither white space nor an underscore. *)
Definition plain (c : ascii) : bool :=
  negb (is_space c) && negb (Ascii.eqb c "_").

(** The numbers the scan reads off a list of sheet names. *)
Definition numbers_of (names : list string) : list Z :=
  flat_map (fun name => match sheet_number name with
                        | Some n => [n]
                        | None => []
                        end) names.

(** The entries of a [stocks] list that are strings, in order. *)
Definition strings_of (entries : list pyval) : list string :=
  flat_map (fun v => match v with PStr s => [s] | _ => [] end) entries.

(** The test a cleaned symbol has to pass. *)
Definition accepted (clean_stock : string) : bool :=
  negb (clean_stock =? EmptyString) && (length clean_stock <=? 20)%nat.

(** A value that cannot be iterated. *)
Definition scalar (v : pyval) : bool :=
  match v with
  | PNone | PBool _ | PInt _ | PFloat _ => true
  | PStr _ | PList _ | PDict _ => false
  end.

(** A payload from which no [stocks] can be taken: not a dict, a dict
    without the field, or a field that holds a scalar. *)
Definition lacks_stocks (alert_data : pyval) : bool :=
  match alert_data with
  | PDict d =>
      match dict_get d "stocks" with
      | None => true
      | Some v => scalar v
      end
  | _ => true
  end.

(** Sheet [name] of the workbook is an iteration sheet that carries the
    number [n]. *)
Definition numbered (wb : Workbook) (n : Z) : Prop :=
  exists name, In name (sheetnames wb)
               /\ startswith "Iteration_" name = true
               /\ sheet_number name = Some n.

(** The numbers found in the file at start. *)
Definition found (f : file_state) (n : Z) : Prop :=
  match f with
  | Stored wb => numbered wb n
  | _ => False
  end.

(** The sentence of the design document on the initial iteration number,
    with ['Iteration_N'] read as the name the writer gives to sheet [N]:
    1 without a file or without a sheet whose name starts with
    ['Iteration_'], otherwise one past the largest [N]. *)
Definition documented_initial_iteration (f : file_state) (r : Z) : Prop :=
  match f with
  | Stored wb =>
      if existsb (startswith "Iteration_") (sheetnames wb)
      then exists n, In (sheet_name_of n) (sheetnames wb)
                     /\ (forall m, In (sheet_name_of m) (sheetnames wb)
                                   -> (m <= n)%Z)
                     /\ r = (n + 1)%Z
      else r = 1%Z
  | _ => r = 1%Z
  end.

Definition titled (name : string) (s : sheet) : bool := title s =? name.

(** Two titles the workbook takes for the same: equal up to letter case. *)
Definition same_title (a b : string) : bool := lower a =? lower b.

(** No sheet of the workbook bears [name], in any letter case. *)
Definition title_free (name : string) (wb : Workbook) : Prop :=
  forall t, In t (sheetnames wb) -> same_title t name = false.

(** No sheet of the workbook bears [name] in another letter case. *)
Definition case_exact (name : string) (wb : Workbook) : Prop :=
  forall t, In t (sheetnames wb) -> same_title t name = true -> t = name.

(** The titles of the file that start with iteration_ in some letter case
    are spelled as the writer spells them. *)
Definition iteration_titles_exact (f : file_state) : Prop :=
  match f with
  | Stored wb =>
      forall t, In t (sheetnames wb) ->
                startswith "iteration_" (lower t) = true ->
                startswith "Iteration_" t = true
  | _ => True
  end.

(** A letter, of either case. *)
Definition is_letter (c : ascii) : bool :=
  is_lower_char c || is_lower_char (lower_char c).

(** The dict of a payload. *)
Definition alert_dict (alert_data : pyval) : dict :=
  match alert_data with
  | PDict d => d
  | _ => []
  end.

(** The payload of a request whose JSON body is [j]. *)
Definition payload (req : request) (j : pyval) : pyval :=
  if truthy j then j else form_to_dict (form req).

(** The rows written for an alert at iteration [n]. *)
Definition alert_rows (env : environment) (alert_data : pyval) (n : Z)
  : list (list pyval) :=
  sheet_rows (build_stock_data (alert_dict alert_data) (now env) n
                (extract_stocks_from_alert alert_data)).

Definition starts_with_space (s : string) : bool :=
  match s with
  | String c _ => is_space c
  | EmptyString => false
  end.

Fixpoint ends_with_space (s : string) : bool :=
  match s with
  | EmptyString => false
  | String c EmptyString => is_space c
  | String _ r => ends_with_space r
  end.

(** The code points of the white space characters. *)
Definition white_space : list nat := [9; 10; 11; 12; 13; 28; 29; 30; 31; 32]%nat.

(** [old] occurs in [s] at position [k]. *)
Definition occurs_at (old s : string) (k : nat) : bool := prefix old (drop k s).

(** The sheets of a workbook other than the one called [name]. *)
Definition other_sheets (name : string) (wb : Workbook) : Workbook :=
  filter (fun s => negb (titled name s)) wb.

Definition with_drive (api : drive_api) (env : environment) : environment :=
  {| now := now env; baseline_save := baseline_save env;
     sheet_fault := sheet_fault env; final_save := final_save env;
     drive := api |}.

(** A request to the remote store that carries the file. *)
Definition is_file_transfer (c : remote_call) : bool :=
  match c with
  | FileUpdate _ | FileCreate _ _ => true
  | FolderCreate _ => false
  end.

(** The write of the workbook raises: opening it, building the sheet or the
    final save. *)
Definition write_raises (env : environment) (w : world) : Prop :=
  (exists e w1, open_workbook env w = (Raises e, w1))
  \/ (exists e, sheet_fault env = Some e)
  \/ (exists e remains, final_save env = SaveFails e remains).

(** The exception, if any, of the listing and transfer calls of an upload. *)
Definition upload_exception (api : drive_api) : option string :=
  match files_list api with
  | Raises e => Some e
  | Returns existing_files =>
      match media_file_upload api with
      | Raises e => Some e
      | Returns _ =>
          match existing_files with
          | _ :: _ => match files_update api with
                      | Raises e => Some e
                      | Returns _ => None
                      end
          | [] => match files_create api with
                  | Raises e => Some e
                  | Returns _ => None
                  end
          end
      end
  end.

(** The exception, if any, of the folder resolution. *)
Definition folder_exception (api : drive_api) : option string :=
  match folders_list api with
  | Raises e => Some e
  | Returns (_ :: _) => None
  | Returns [] => match folders_create api with
                  | Raises e => Some e
                  | Returns _ => None
                  end
  end.

(** The file transfers among the requests sent to the remote store. *)
Definition transfers (w : world) : list remote_call :=
  filter is_file_transfer (remote w).

(** The server takes the requests one after the other, each in its own
    surroundings; the responses come back in the same order. *)
Fixpoint serve (requests : list (environment * request)) (w : world)
  : list (pyval * Z) * world :=
  match requests with
  | [] => ([], w)
  | (env, req) :: rest =>
      let '(result, code, w1) := chartink_webhook env req w in
      let '(responses, w2) := serve rest w1 in
      ((result, code) :: responses, w2)
  end.

(** The number of responses with status code 200. *)
Definition count_ok (responses : list (pyval * Z)) : nat :=
  List.length (filter (fun r => (snd r =? 200)%Z) responses).

(** The iteration numbers that the successful responses report. *)
Definition reported_iterations (responses : list (pyval * Z)) : list Z :=
  flat_map (fun r =>
              if (snd r =? 200)%Z then
                match fst r with
                | PDict d => match dict_get d "iteration" with
                             | Some (PInt n) => [n]
                             | _ => []
                             end
                | _ => []
                end
              else []) responses.

(** No save of the workbook fails. *)
Definition saves_ok (env : environment) : Prop :=
  baseline_save env = SaveOk /\ final_save env = SaveOk.

(** The counter is the number a restart would read from the file. *)
Definition counter_matches_file (w : world) : Prop :=
  current_iteration (handler w) = get_next_iteration_number (disk w).

(** The condition of lines 259: uploads are attempted. *)
Definition drive_active (w : world) : bool :=
  match drive_handler (handler w) with
  | Some d => use_google_drive (handler w) && service d
  | None => false
  end.

(** The columns of an iteration sheet. *)
Definition columns : list string :=
  ["Sr_No"; "Stock_Symbol"; "Trigger_Price"; "Scan_Name"; "Alert_Name";
   "Triggered_At"; "Date_Added"; "Iteration"; "Alert_Time"; "Scan_URL"].

(** The sheet written for the alert at iteration [n]. *)
Definition iteration_sheet (env : environment) (alert_data : dict) (n : Z)
    (stocks : list string) : sheet :=
  {| title := sheet_name_of n;
     rows := sheet_rows (build_stock_data alert_data (now env) n stocks) |}.

(** The [parents] an upload gives to a file it creates. *)
Definition parents_of (d : drive_state) : list string :=
  if folder_known d
  then match folder_id d with
       | Some i => [i]
       | None => []
       end
  else [].

(** The folder resolution yields the id [i]. *)
Definition folder_resolves (api : drive_api) (i : string) : Prop :=
  (exists rest, folders_list api = Returns (i :: rest))
  \/ (folders_list api = Returns [] /\ folders_create api = Returns (Some i)).

(** ** Sample surroundings, for the instances *)

Definition sample_clock : clock :=
  {| strftime_HM_p := "09:15 AM"; strftime_Ymd := "2024-01-01";
     strftime_HMS := "09:15:00" |}.

(** A remote store in which the folder resolution raises and every other
    call returns; no file of the name is there yet. *)
Definition folder_failing_api : drive_api :=
  {| folders_list := Raises "HttpError 500";
     folders_create := Returns (Some "folder-1");
     files_list := Returns [];
     media_file_upload := Returns tt;
     files_update := Returns (Some "file-1");
     files_create := Returns (Some "file-1") |}.

Definition sample_env : environment :=
  {| now := sample_clock; baseline_save := SaveOk; sheet_fault := None;
     final_save := SaveOk; drive := folder_failing_api |}.

(** The server started with credentials and without a workbook. *)
Definition sample_world : world :=
  startup {| credentials_exist := true; build_service := Returns tt |} Absent.

Definition sample_alert : pyval :=
  PDict [("stocks", PStr "NSE:TCS, INFY.NS");
         ("trigger_prices", PStr "3500,1500")].

Definition sample_request : request :=
  {| get_json := Returns sample_alert; form := [] |}.

Definition sheet_titled (name : string) : sheet :=
  {| title := name; rows := [[PStr "Sr_No"]; [PInt 1]] |}.

(** A server without Drive whose counter is at 1 over a workbook that
    already has a sheet Iteration_1. *)
Definition replay_world : world :=
  {| handler := {| excel_file := "Chartink_Workflow.xlsx";
                   use_google_drive := false;
                   drive_handler := None;
                   current_iteration := 1 |};
     disk := Stored [sheet_titled "Master_List"; sheet_titled "Iteration_1";
                     sheet_titled "TradingView_Export"];
     console := []; remote := [] |}.

(** A server without Drive whose counter is at 1, as read at start from a
    workbook whose only sheet is named iteration_1, in lower case. *)
Definition shadowed_world : world :=
  {| handler := {| excel_file := "Chartink_Workflow.xlsx";
                   use_google_drive := false;
                   drive_handler := None;
                   current_iteration :=
                     get_next_iteration_number
                       (Stored [sheet_titled "iteration_1"]) |};
     disk := Stored [sheet_titled "iteration_1"];
     console := []; remote := [] |}.

(** * Properties *)

(** Case analysis on what a [match] of the goal inspects. *)
Ltac case_scrutinee :=
  match goal with
  | |- context [match ?x with _ => _ end] => destruct x eqn:?
  end.


(** ** Strings *)

Lemma lstrip_head s :
  lstrip s = EmptyString \/
  exists c r, lstrip s = String c r /\ is_space c = false.
Proof.
  induction s as [|c r IH]; simpl; [now left|].
  destruct (is_space c) eqn:E; [exact IH|].
  right. now exists c, r.
Qed.

Lemma rstrip_cons c r :
  rstrip (String c r) =
  match rstrip r with
  | EmptyString => if is_space c then EmptyString else String c EmptyString
  | r' => String c r'
  end.
Proof. reflexivity. Qed.

Lemma rstrip_idem s : rstrip (rstrip s) = rstrip s.
Proof.
  induction s as [|c r IH]; [reflexivity|].
  rewrite rstrip_cons.
  destruct (rstrip r) as [|c' r'] eqn:E.
  - destruct (is_space c) eqn:Ec; [reflexivity|].
    rewrite rstrip_cons. simpl. now rewrite Ec.
  - rewrite rstrip_cons, IH. reflexivity.
Qed.

Lemma lstrip_rstrip_lstrip s : lstrip (rstrip (lstrip s)) = rstrip (lstrip s).
Proof.
  destruct (lstrip_head s) as [-> | (c & r & -> & Hc)]; [reflexivity|].
  rewrite rstrip_cons. destruct (rstrip r); rewrite ?Hc; cbn [lstrip];
    now rewrite Hc.
Qed.

Lemma strip_idem s : strip (strip s) = strip s.
Proof.
  unfold strip. now rewrite lstrip_rstrip_lstrip, rstrip_idem.
Qed.

Lemma strip_no_space s :
  all_chars (fun c => negb (is_space c)) s = true -> strip s = s.
Proof.
  unfold strip. intros H.
  assert (Hl : lstrip s = s).
  { destruct s as [|c r]; [reflexivity|]. simpl in *.
    apply andb_prop in H as [Hc _]. apply negb_true_iff in Hc.
    now rewrite Hc. }
  rewrite Hl. clear Hl.
  induction s as [|c r IH]; [reflexivity|]. simpl in *.
  apply andb_prop in H as [Hc Hr]. apply negb_true_iff in Hc.
  rewrite (IH Hr). destruct r; [now rewrite Hc | reflexivity].
Qed.

Lemma prefix_char a c r :
  prefix (String a EmptyString) (String c r) = Ascii.eqb c a.
Proof.
  simpl. destruct (ascii_dec a c) as [->|N].
  - rewrite Ascii.eqb_refl. now destruct r.
  - symmetry. apply Ascii.eqb_neq. congruence.
Qed.

Lemma split_from_nonempty sep k s : split_from sep k s <> [].
Proof.
  revert k. induction s as [|c r IH]; intros k; cbn [split_from];
    [discriminate|].
  destruct k; [|apply IH].
  destruct (prefix sep (String c r)); [discriminate|].
  destruct (split_from sep 0 r); discriminate.
Qed.

Section SplitAtChar.

Variable a : ascii.

(** Without the separator there is one piece. *)
Lemma split_char_free s :
  char_free a s = true -> split (String a EmptyString) s = [s].
Proof.
  unfold split. induction s as [|c r IH]; intros H; [reflexivity|].
  unfold char_free in *. simpl in H. apply andb_prop in H as [Hc Hr].
  cbn [split_from]. rewrite prefix_char.
  apply negb_true_iff in Hc. rewrite Hc. now rewrite (IH Hr).
Qed.

Lemma split_char_app s t :
  char_free a s = true ->
  split (String a EmptyString) (s ++ String a t)
  = s :: split (String a EmptyString) t.
Proof.
  unfold split. induction s as [|c r IH]; intros H.
  - cbn [append split_from]. now rewrite prefix_char, Ascii.eqb_refl.
  - unfold char_free in *. simpl in H. apply andb_prop in H as [Hc Hr].
    cbn [append split_from]. rewrite prefix_char.
    apply negb_true_iff in Hc. rewrite Hc. now rewrite (IH Hr).
Qed.

End SplitAtChar.

(** Joining comma-free strings and splitting again gives them back. *)
Lemma split_join l :
  l <> [] -> forallb comma_free l = true -> split "," (join "," l) = l.
Proof.
  induction l as [|s l IH]; intros Hne H; [congruence|].
  simpl in H. apply andb_prop in H as [Hs Hl].
  destruct l as [|s' l'].
  - simpl. now apply (split_char_free ",").
  - unfold join in *.
    change (split "," (s ++ String "," (concat "," (s' :: l')))
            = s :: s' :: l').
    rewrite (split_char_app ",") by assumption.
    f_equal. apply IH; [discriminate | assumption].
Qed.

(** [replace] with the empty string glues the pieces of [split]. *)
Lemma replace_from_split old k s :
  replace_from old EmptyString k s = concat EmptyString (split_from old k s).
Proof.
  revert k. induction s as [|c r IH]; intros k; [reflexivity|].
  cbn [replace_from split_from]. destruct k; [|apply IH].
  destruct (prefix old (String c r)).
  - rewrite IH. cbn [append concat].
    destruct (split_from old (length old - 1) r) eqn:E; [|reflexivity].
    now apply split_from_nonempty in E.
  - rewrite IH.
    destruct (split_from old 0 r) as [|p ps] eqn:E.
    + now apply split_from_nonempty in E.
    + cbn [concat]. destruct ps; reflexivity.
Qed.

Lemma replace_is_join_split old s :
  replace old EmptyString s = join EmptyString (split old s).
Proof. apply replace_from_split. Qed.

Lemma all_chars_replace_from p old k s :
  all_chars p s = true -> all_chars p (replace_from old EmptyString k s) = true.
Proof.
  revert k. induction s as [|c r IH]; intros k H; [reflexivity|].
  simpl in H. apply andb_prop in H as [Hc Hr].
  cbn [replace_from]. destruct k; [|now apply IH].
  destruct (prefix old (String c r)).
  - now apply IH.
  - simpl. rewrite Hc. now apply IH.
Qed.

Lemma upper_char_not_lower c : is_lower_char (upper_char c) = false.
Proof.
  destruct c as [[] [] [] [] [] [] [] []]; reflexivity.
Qed.

Lemma upper_no_lowercase s : no_lowercase (upper s) = true.
Proof.
  induction s as [|c r IH]; [reflexivity|].
  unfold no_lowercase in *. simpl.
  now rewrite upper_char_not_lower, IH.
Qed.

Lemma clean_no_lowercase s : no_lowercase (clean s) = true.
Proof.
  unfold clean, replace, no_lowercase.
  do 2 apply all_chars_replace_from. apply upper_no_lowercase.
Qed.

(** ** The alert normalizer *)

Lemma clean_loop_from acc l :
  fold_left clean_step l acc
  = acc ++ filter accepted (map clean (strings_of l)).
Proof.
  revert acc. induction l as [|v l IH]; intros acc; simpl.
  - now rewrite app_nil_r.
  - rewrite IH. destruct v; simpl; try reflexivity.
    fold (accepted (clean s)). destruct (accepted (clean s)); simpl.
    + now rewrite <- app_assoc.
    + reflexivity.
Qed.

(** The loop is a filter over the cleaned strings. *)
Lemma clean_loop_filter l :
  clean_loop l = filter accepted (map clean (strings_of l)).
Proof. apply (clean_loop_from []). Qed.

Lemma strings_of_strings l : strings_of (map PStr l) = l.
Proof.
  induction l as [|s l IH]; simpl; [reflexivity|]. now rewrite IH.
Qed.

Lemma clean_strip s : clean (strip s) = clean s.
Proof. unfold clean. now rewrite strip_idem. Qed.

Example clean_exchange_marks : clean " nse:tcs.ns " = "TCS".
Proof. reflexivity. Qed.

(** The removal is one pass from the left: an occurrence that the removal
    itself brings together stays. *)
Example clean_is_one_pass : clean "NNSE:SE:" = "NSE:".
Proof. reflexivity. Qed.

Lemma extract_of_list d entries :
  dict_get d "stocks" = Some (PList entries) ->
  extract_stocks_from_alert (PDict d)
  = filter accepted (map clean (strings_of entries)).
Proof.
  intros H. unfold extract_stocks_from_alert. rewrite H. simpl.
  apply clean_loop_filter.
Qed.

Lemma extract_of_string d s :
  dict_get d "stocks" = Some (PStr s) ->
  extract_stocks_from_alert (PDict d)
  = filter accepted (map clean (split "," s)).
Proof.
  intros H. unfold extract_stocks_from_alert. rewrite H.
  rewrite clean_loop_filter, strings_of_strings, map_map.
  f_equal. apply map_ext. intros p. apply clean_strip.
Qed.

Lemma extract_of_mapping d m :
  dict_get d "stocks" = Some (PDict m) ->
  extract_stocks_from_alert (PDict d)
  = filter accepted (map clean (dict_keys m)).
Proof.
  intros H. unfold extract_stocks_from_alert. rewrite H. simpl.
  now rewrite clean_loop_filter, strings_of_strings.
Qed.

Lemma extract_lacking alert_data :
  lacks_stocks alert_data = true -> extract_stocks_from_alert alert_data = [].
Proof.
  destruct alert_data; try reflexivity. simpl.
  destruct (dict_get d "stocks") as [v|]; [|reflexivity].
  destruct v; simpl; intros H; try discriminate; reflexivity.
Qed.

(** *** What trimming, upper-casing and removal are *)

Lemma lstrip_split s :
  exists a, s = (a ++ lstrip s)%string /\ all_chars is_space a = true.
Proof.
  induction s as [|c r (a & E & Ha)]; [now exists EmptyString|].
  simpl. destruct (is_space c) eqn:Ec.
  - exists (String c a). simpl. rewrite Ec, Ha. split; [now f_equal | reflexivity].
  - now exists EmptyString.
Qed.

Lemma rstrip_split s :
  exists b, s = (rstrip s ++ b)%string /\ all_chars is_space b = true.
Proof.
  induction s as [|c r (b & E & Hb)]; [now exists EmptyString|].
  rewrite rstrip_cons. destruct (rstrip r) as [|c' r'] eqn:Er.
  - simpl in E. subst b. destruct (is_space c) eqn:Ec.
    + exists (String c r). simpl. now rewrite Ec, Hb.
    + exists r. now split.
  - exists b. split; [|exact Hb]. simpl. f_equal. exact E.
Qed.

Lemma rstrip_not_ending s : ends_with_space (rstrip s) = false.
Proof.
  induction s as [|c r IH]; [reflexivity|].
  rewrite rstrip_cons. destruct (rstrip r) as [|c' r'].
  - destruct (is_space c) eqn:Ec; [reflexivity | exact Ec].
  - exact IH.
Qed.

Lemma strip_not_starting s : starts_with_space (strip s) = false.
Proof.
  unfold strip.
  destruct (lstrip_head s) as [-> | (c & r & -> & Hc)]; [reflexivity|].
  rewrite rstrip_cons. destruct (rstrip r); [rewrite Hc|]; exact Hc.
Qed.

(** [strip] takes off the white space at both ends, and all of it. *)
Lemma strip_split s :
  exists a b,
    s = (a ++ strip s ++ b)%string
    /\ all_chars is_space a = true
    /\ all_chars is_space b = true
    /\ starts_with_space (strip s) = false
    /\ ends_with_space (strip s) = false.
Proof.
  destruct (lstrip_split s) as (a & Ea & Ha).
  destruct (rstrip_split (lstrip s)) as (b & Eb & Hb).
  exists a, b. unfold strip at 1. rewrite <- Eb.
  repeat split; try assumption;
    [apply strip_not_starting | apply rstrip_not_ending].
Qed.

Lemma is_space_codes c :
  is_space c = true <-> In (nat_of_ascii c) white_space.
Proof.
  unfold is_space, white_space. cbv zeta. cbn [In].
  rewrite orb_true_iff, !andb_true_iff, !Nat.leb_le. lia.
Qed.

Lemma upper_length s : length (upper s) = length s.
Proof. induction s as [|c r IH]; simpl; [reflexivity | now rewrite IH]. Qed.

Lemma upper_app s t : upper (s ++ t) = (upper s ++ upper t)%string.
Proof. induction s as [|c r IH]; simpl; [reflexivity | now rewrite IH]. Qed.

Lemma upper_fixed s : no_lowercase s = true -> upper s = s.
Proof.
  unfold no_lowercase. induction s as [|c r IH]; [reflexivity|].
  simpl. intros H. apply andb_prop in H as [Hc Hr].
  rewrite (IH Hr). f_equal. apply negb_true_iff in Hc.
  unfold upper_char, is_lower_char in *. cbv zeta in *. now rewrite Hc.
Qed.

Lemma prefix_app_self p s : prefix p (p ++ s) = true.
Proof.
  induction p as [|c p IH]; [now destruct s|].
  simpl. destruct (ascii_dec c c); [exact IH | congruence].
Qed.

Lemma replace_from_skip old new t s :
  replace_from old new (length t) (t ++ s) = replace_from old new 0 s.
Proof. induction t as [|c t IH]; [reflexivity | exact IH]. Qed.

(** Without an occurrence of [old] nothing is replaced. *)
Lemma replace_absent old new s :
  (forall k, occurs_at old s k = false) -> replace old new s = s.
Proof.
  unfold replace, occurs_at. induction s as [|c r IH]; intros H; [reflexivity|].
  cbn [replace_from]. rewrite (H 0%nat : prefix old (String c r) = false).
  f_equal. apply IH. intros k. exact (H (S k)).
Qed.

(** The first occurrence of [old] is replaced, and the replacement goes on
    behind it. *)
Lemma replace_first old new a b :
  old <> EmptyString ->
  (forall k, (k < length a)%nat -> occurs_at old (a ++ old ++ b) k = false) ->
  replace old new (a ++ old ++ b) = (a ++ new ++ replace old new b)%string.
Proof.
  unfold replace, occurs_at. intros Hold.
  induction a as [|x a IH]; intros H.
  - destruct old as [|c o]; [congruence|].
    change (EmptyString ++ String c o ++ b)%string
      with (String c (o ++ b)).
    cbn [replace_from].
    change (String c (o ++ b)) with (String c o ++ b)%string.
    rewrite prefix_app_self.
    replace (length (String c o) - 1)%nat with (length o) by (cbn; lia).
    now rewrite replace_from_skip.
  - change (String x a ++ old ++ b)%string with (String x (a ++ old ++ b)).
    cbn [replace_from].
    rewrite (H 0%nat (Nat.lt_0_succ _)
             : prefix old (String x (a ++ old ++ b)) = false).
    cbn [append]. f_equal. apply IH. intros k Hk.
    apply (H (S k)). cbn [length]. lia.
Qed.

(** C2: the symbols of a [stocks] list are its string entries, cleaned, in
    the order of the input and duplicates included, without those that are
    then empty or longer than 20 characters; the same holds for the pieces
    of a comma-separated string.  Cleaning trims, upper-cases and removes
    NSE: and .NS, where trimming takes off exactly the white space at both
    ends, upper-casing maps the letters a to z to A to Z and keeps every
    other character in its place, and removal takes out the occurrences
    found from the left. *)
Theorem normalizer_cleans_each_entry :
  (forall d entries,
      dict_get d "stocks" = Some (PList entries) ->
      extract_stocks_from_alert (PDict d)
      = filter accepted (map clean (strings_of entries)))
  /\ (forall d s,
      dict_get d "stocks" = Some (PStr s) ->
      extract_stocks_from_alert (PDict d)
      = filter accepted (map clean (split "," s)))
  /\ (forall s,
      clean s
      = replace ".NS" EmptyString
          (replace "NSE:" EmptyString (upper (strip s)))
      /\ no_lowercase (clean s) = true)
  /\ (forall s,
      exists a b,
        s = (a ++ strip s ++ b)%string
        /\ all_chars is_space a = true
        /\ all_chars is_space b = true
        /\ starts_with_space (strip s) = false
        /\ ends_with_space (strip s) = false)
  /\ (forall c, is_space c = true <-> In (nat_of_ascii c) white_space)
  /\ (upper "abcdefghijklmnopqrstuvwxyz" = "ABCDEFGHIJKLMNOPQRSTUVWXYZ"
      /\ forall s t,
          length (upper s) = length s
          /\ upper (s ++ t) = (upper s ++ upper t)%string
          /\ (no_lowercase s = true -> upper s = s))
  /\ (forall old s,
      (forall k, occurs_at old s k = false) ->
      replace old EmptyString s = s)
  /\ (forall old a b,
      old <> EmptyString ->
      (forall k, (k < length a)%nat ->
                 occurs_at old (a ++ old ++ b) k = false) ->
      replace old EmptyString (a ++ old ++ b)
      = (a ++ replace old EmptyString b)%string)
  /\ (forall x, accepted x = true <-> x <> EmptyString /\ (length x <= 20)%nat).
Proof.
  split; [exact extract_of_list|].
  split; [exact extract_of_string|].
  split; [intros s; split; [reflexivity | apply clean_no_lowercase]|].
  split; [exact strip_split|].
  split; [exact is_space_codes|].
  split.
  { split; [reflexivity|]. intros s t.
    split; [apply upper_length|]. split; [apply upper_app | apply upper_fixed]. }
  split; [intros old s; apply replace_absent|].
  split; [intros old a b; apply (replace_first old EmptyString)|].
  intros x. unfold accepted.
  rewrite andb_true_iff, negb_true_iff, Nat.leb_le.
  split; intros [H1 H2]; split; try assumption.
  - now apply String.eqb_neq.
  - now apply String.eqb_neq.
Qed.

Lemma normalizer_cleans_each_entry_witness :
  extract_stocks_from_alert
    (PDict [("scan_name", PStr "intraday");
            ("stocks",
             PList [PStr " tcs"; PStr "NSE:TCS"; PInt 7; PStr " ";
                    PStr "ABCDEFGHIJKLMNOPQRSTU.NS"; PStr "infy.ns"])])
  = ["TCS"; "TCS"; "INFY"]
  /\ replace ".NS" EmptyString ("TCS" ++ ".NS" ++ "X.NS")
     = ("TCS" ++ replace ".NS" EmptyString "X.NS")%string.
Proof.
  split.
  - rewrite (proj1 normalizer_cleans_each_entry _
               [PStr " tcs"; PStr "NSE:TCS"; PInt 7; PStr " ";
                PStr "ABCDEFGHIJKLMNOPQRSTU.NS"; PStr "infy.ns"]).
    + reflexivity.
    + reflexivity.
  - apply (proj1 (proj2 (proj2 (proj2 (proj2 (proj2 (proj2 (proj2
             normalizer_cleans_each_entry)))))))
             ".NS" "TCS" "X.NS"); [discriminate|].
    intros [|[|[|k]]] Hk; try reflexivity. cbn in Hk. lia.
Defined.

(** C5: a comma-separated [stocks] string and the list of its pieces give
    the same symbols; so do a list of comma-free strings and the string
    that joins them with commas. *)
Theorem string_and_list_agree :
  (forall d d' s,
      dict_get d "stocks" = Some (PStr s) ->
      dict_get d' "stocks" = Some (PList (map PStr (split "," s))) ->
      extract_stocks_from_alert (PDict d)
      = extract_stocks_from_alert (PDict d'))
  /\ (forall d d' symbols,
      forallb comma_free symbols = true ->
      dict_get d "stocks" = Some (PStr (join "," symbols)) ->
      dict_get d' "stocks" = Some (PList (map PStr symbols)) ->
      extract_stocks_from_alert (PDict d)
      = extract_stocks_from_alert (PDict d')).
Proof.
  split.
  - intros d d' s H H'.
    rewrite (extract_of_string _ _ H), (extract_of_list _ _ H').
    now rewrite strings_of_strings.
  - intros d d' symbols Hc H H'.
    rewrite (extract_of_string _ _ H), (extract_of_list _ _ H').
    rewrite strings_of_strings.
    destruct symbols as [|s l]; [reflexivity|].
    rewrite split_join; [reflexivity | discriminate | assumption].
Qed.

Lemma string_and_list_agree_witness :
  extract_stocks_from_alert
    (PDict [("stocks", PStr (join "," ["NSE:TCS"; " INFY.NS"; "sbin"]))])
  = extract_stocks_from_alert
      (PDict [("stocks", PList [PStr "NSE:TCS"; PStr " INFY.NS"; PStr "sbin"])])
  /\ extract_stocks_from_alert (PDict [("stocks", PStr "a, b,,c")])
     = extract_stocks_from_alert
         (PDict [("stocks", PList [PStr "a"; PStr " b"; PStr EmptyString; PStr "c"])]).
Proof.
  split.
  - apply (proj2 string_and_list_agree _ _ ["NSE:TCS"; " INFY.NS"; "sbin"]);
      reflexivity.
  - apply (proj1 string_and_list_agree _ _ "a, b,,c"); reflexivity.
Defined.

(** ** Rows and trigger prices *)

Lemma enumerate_entries_nth alert_data current_time iteration prices :
  forall stocks i0 k stock,
    nth_error stocks k = Some stock ->
    nth_error
      (enumerate_entries alert_data current_time iteration prices i0 stocks) k
    = Some (stock_entry alert_data current_time iteration prices
              (i0 + k) stock).
Proof.
  induction stocks as [|s r IH]; intros i0 k stock H.
  - destruct k; discriminate.
  - destruct k as [|k]; simpl in *.
    + injection H as ->. now rewrite Nat.add_0_r.
    + rewrite (IH (S i0) k stock H). do 2 f_equal. lia.
Qed.

Lemma enumerate_entries_length alert_data current_time iteration prices :
  forall stocks i0,
    List.length
      (enumerate_entries alert_data current_time iteration prices i0 stocks)
    = List.length stocks.
Proof.
  induction stocks as [|s r IH]; intros i0; simpl; [reflexivity|].
  now rewrite IH.
Qed.

(** C3: the entry built for the symbol at position [i + 1] carries that
    position, the symbol, and as trigger price the entry of the parsed price
    list at the same position when there is one and the integer zero
    otherwise; nothing relates the lengths of the two lists.  The price is
    the third cell of the row.  The payload of the example gives TCS at
    3500.0 and INFY at 1500.0. *)
Theorem trigger_price_by_position :
  (forall alert_data current_time iteration stocks i stock,
      nth_error stocks i = Some stock ->
      exists entry,
        nth_error
          (build_stock_data alert_data current_time iteration stocks) i
        = Some entry
        /\ dict_get entry "Sr_No" = Some (PInt (Z.of_nat (i + 1)))
        /\ dict_get entry "Stock_Symbol" = Some (PStr stock)
        /\ dict_get entry "Trigger_Price"
           = Some match nth_error (parse_trigger_prices alert_data) i with
                  | Some p => PFloat p
                  | None => PInt 0
                  end
        /\ nth_error (dict_values entry) 2 = dict_get entry "Trigger_Price")
  /\ (forall alert_data current_time iteration stocks,
      List.length (build_stock_data alert_data current_time iteration stocks)
      = List.length stocks)
  /\ (let alert_data := [("stocks", PStr "NSE:TCS, INFY.NS");
                         ("trigger_prices", PStr "3500,1500")] in
      extract_stocks_from_alert (PDict alert_data) = ["TCS"; "INFY"]
      /\ parse_trigger_prices alert_data
         = [S754_finite false 7696581394432000 (-41);
            S754_finite false 6597069766656000 (-42)]
      /\ forall current_time iteration,
          map (fun entry => dict_get entry "Trigger_Price")
            (build_stock_data alert_data current_time iteration
               (extract_stocks_from_alert (PDict alert_data)))
          = [Some (PFloat (S754_finite false 7696581394432000 (-41)));
             Some (PFloat (S754_finite false 6597069766656000 (-42)))]).
Proof.
  split; [|split].
  - intros alert_data current_time iteration stocks i stock H.
    eexists. split.
    + unfold build_stock_data.
      apply (enumerate_entries_nth _ _ _ _ stocks 1 i stock H).
    + replace (1 + i)%nat with (i + 1)%nat by lia.
      unfold stock_entry.
      replace (i + 1 - 1)%nat with i by lia.
      repeat split; reflexivity.
  - intros. apply enumerate_entries_length.
  - cbv zeta. split; [reflexivity|]. split; [vm_compute; reflexivity|].
    intros current_time iteration. vm_compute. reflexivity.
Qed.

Lemma trigger_price_by_position_witness :
  exists entry,
    nth_error
      (build_stock_data [("trigger_prices", PStr "3500")]
         {| strftime_HM_p := "09:15 AM"; strftime_Ymd := "2024-01-01";
            strftime_HMS := "09:15:00" |} 4 ["TCS"; "INFY"]) 1
    = Some entry
    /\ dict_get entry "Sr_No" = Some (PInt 2)
    /\ dict_get entry "Stock_Symbol" = Some (PStr "INFY")
    /\ dict_get entry "Trigger_Price" = Some (PInt 0)
    /\ nth_error (dict_values entry) 2 = dict_get entry "Trigger_Price".
Proof.
  apply (proj1 trigger_price_by_position
           [("trigger_prices", PStr "3500")] _ 4%Z ["TCS"; "INFY"] 1 "INFY").
  reflexivity.
Defined.

(** ** Integers and their decimal text *)

Lemma uint_text_plain d : all_chars plain (NilEmpty.string_of_uint d) = true.
Proof. induction d; simpl; auto. Qed.

Lemma uint_text_digitpart d b :
  d <> Decimal.Nil \/ b = true ->
  digitpart_from b (NilEmpty.string_of_uint d)
  = Some (NilEmpty.string_of_uint d).
Proof.
  revert b. induction d as [|d IH|d IH|d IH|d IH|d IH|d IH|d IH|d IH|d IH|d IH];
    intros b H;
    [ destruct H as [H | ->]; [congruence | reflexivity]
    | simpl; rewrite (IH true) by (now right); reflexivity .. ].
Qed.

Lemma uint_text_sign d :
  take_sign (NilEmpty.string_of_uint d) = (false, NilEmpty.string_of_uint d).
Proof. destruct d; reflexivity. Qed.

Lemma all_chars_weaken (p q : ascii -> bool) s :
  (forall c, p c = true -> q c = true) ->
  all_chars p s = true -> all_chars q s = true.
Proof.
  intros Hpq. induction s as [|c r IH]; simpl; [reflexivity|].
  intros H. apply andb_prop in H as [Hc Hr].
  now rewrite (Hpq c Hc), IH.
Qed.

Lemma plain_no_space s :
  all_chars plain s = true ->
  all_chars (fun c => negb (is_space c)) s = true.
Proof.
  apply all_chars_weaken. intros c H. now apply andb_prop in H as [H _].
Qed.

Lemma plain_no_underscore s :
  all_chars plain s = true -> char_free "_" s = true.
Proof.
  apply all_chars_weaken. intros c H. now apply andb_prop in H as [_ H].
Qed.

Lemma py_str_int_plain n : all_chars plain (py_str_int n) = true.
Proof.
  unfold py_str_int. destruct n as [|p|p]; simpl; [reflexivity| |].
  - destruct (Pos.to_uint p); try apply uint_text_plain. reflexivity.
  - destruct (Pos.to_uint p); try apply uint_text_plain. reflexivity.
Qed.

Lemma py_int_uint_text d :
  d <> Decimal.Nil ->
  py_int (NilEmpty.string_of_uint d) = Some (Z.of_uint d)
  /\ py_int (String "-" (NilEmpty.string_of_uint d)) = Some (- Z.of_uint d)%Z.
Proof.
  intros Hd. unfold py_int. split.
  - rewrite strip_no_space by apply plain_no_space, uint_text_plain.
    rewrite uint_text_sign. unfold digitpart.
    rewrite uint_text_digitpart by (now left).
    unfold digits_value. now rewrite NilEmpty.usu.
  - rewrite strip_no_space
      by (simpl; apply plain_no_space, uint_text_plain).
    cbn [take_sign]. unfold digitpart.
    rewrite uint_text_digitpart by (now left).
    unfold digits_value. now rewrite NilEmpty.usu.
Qed.

(** [int(str(n)) == n] *)
Lemma py_int_str n : py_int (py_str_int n) = Some n.
Proof.
  destruct n as [|p|p]; [reflexivity| |].
  - unfold py_str_int. cbn [Z.to_int NilZero.string_of_int].
    pose proof (DecimalPos.Unsigned.to_uint_nonnil p) as Hp.
    pose proof (DecimalPos.Unsigned.of_to p) as Hv.
    unfold Pos.to_int. cbn [NilZero.string_of_int].
    unfold NilZero.string_of_uint.
    destruct (Pos.to_uint p) eqn:E; try congruence;
      rewrite <- E in *; rewrite (proj1 (py_int_uint_text _ Hp));
      unfold Z.of_uint; now rewrite Hv.
  - unfold py_str_int. cbn [Z.to_int NilZero.string_of_int].
    pose proof (DecimalPos.Unsigned.to_uint_nonnil p) as Hp.
    pose proof (DecimalPos.Unsigned.of_to p) as Hv.
    unfold NilZero.string_of_uint.
    destruct (Pos.to_uint p) eqn:E; try congruence;
      rewrite <- E in *; rewrite (proj2 (py_int_uint_text _ Hp));
      unfold Z.of_uint; now rewrite Hv.
Qed.

(** ** The scan of the sheet names at start *)

Lemma sheet_name_starts n : startswith "Iteration_" (sheet_name_of n) = true.
Proof.
  unfold startswith, sheet_name_of. simpl. now destruct (py_str_int n).
Qed.

(** The name the writer gives to sheet [n] is read back as [n]. *)
Lemma sheet_number_of_name n : sheet_number (sheet_name_of n) = Some n.
Proof.
  unfold sheet_number, sheet_name_of.
  change ("Iteration_" ++ py_str_int n)%string
    with ("Iteration" ++ String "_" (py_str_int n))%string.
  rewrite (split_char_app "_") by reflexivity.
  rewrite (split_char_free "_")
    by apply plain_no_underscore, py_str_int_plain.
  simpl. apply py_int_str.
Qed.

Lemma collect_numbers_from acc names :
  fold_left
    (fun numbers sheet =>
       match sheet_number sheet with
       | Some n => numbers ++ [n]
       | None => numbers
       end) names acc
  = acc ++ numbers_of names.
Proof.
  revert acc. induction names as [|s r IH]; intros acc; simpl.
  - now rewrite app_nil_r.
  - rewrite IH. destruct (sheet_number s); simpl; [|reflexivity].
    now rewrite <- app_assoc.
Qed.

Lemma collect_numbers_flat names : collect_numbers names = numbers_of names.
Proof. apply (collect_numbers_from []). Qed.

Lemma py_max_upper n ns : forall m, In m (n :: ns) -> (m <= py_max n ns)%Z.
Proof.
  unfold py_max. revert n. induction ns as [|k ns IH]; intros n m H; simpl.
  - destruct H as [<- | []]. lia.
  - destruct H as [<- | [<- | H]].
    + etransitivity; [|apply IH; now left]. lia.
    + etransitivity; [|apply IH; now left]. lia.
    + apply IH. now right.
Qed.

Lemma py_max_in n ns : In (py_max n ns) (n :: ns).
Proof.
  unfold py_max. revert n. induction ns as [|k ns IH]; intros n; simpl.
  - now left.
  - destruct (IH (Z.max n k)) as [H | H].
    + destruct (Z.max_spec n k) as [[_ E] | [_ E]]; rewrite E in *.
      * right. now left.
      * now left.
    + right. now right.
Qed.

Lemma get_next_stored wb :
  get_next_iteration_number (Stored wb)
  = match numbers_of (filter (startswith "Iteration_") (sheetnames wb)) with
    | [] => 1%Z
    | n :: ns => (py_max n ns + 1)%Z
    end.
Proof.
  unfold get_next_iteration_number. cbn [path_exists negb load_workbook].
  rewrite collect_numbers_flat.
  destruct (filter (startswith "Iteration_") (sheetnames wb)); reflexivity.
Qed.

Lemma numbered_in wb n :
  numbered wb n
  <-> In n (numbers_of (filter (startswith "Iteration_") (sheetnames wb))).
Proof.
  unfold numbered, numbers_of. rewrite in_flat_map. split.
  - intros (name & Hin & Hp & Hn). exists name. split.
    + apply filter_In. now split.
    + rewrite Hn. now left.
  - intros (name & Hin & Hn). apply filter_In in Hin as [Hin Hp].
    exists name. repeat split; try assumption.
    destruct (sheet_number name) as [k|]; [|contradiction].
    destruct Hn as [-> | []]. reflexivity.
Qed.

Lemma scan_without_numbers f :
  (forall n, ~ found f n) -> get_next_iteration_number f = 1%Z.
Proof.
  destruct f as [|e|wb]; try reflexivity. intros H.
  rewrite get_next_stored.
  destruct (numbers_of _) as [|n ns] eqn:E; [reflexivity|].
  exfalso. apply (H n). cbn [found]. apply numbered_in. rewrite E. now left.
Qed.

Lemma scan_with_numbers f :
  (exists n, found f n) ->
  exists n, found f n
            /\ (forall m, found f m -> (m <= n)%Z)
            /\ get_next_iteration_number f = (n + 1)%Z.
Proof.
  destruct f as [|e|wb]; [intros [n []] | intros [n []] | intros [k Hk]].
  rewrite get_next_stored. cbn [found] in *.
  apply numbered_in in Hk.
  destruct (numbers_of _) as [|n ns] eqn:E; [contradiction|].
  exists (py_max n ns). split; [|split].
  - apply numbered_in. rewrite E. apply py_max_in.
  - intros m Hm. apply numbered_in in Hm. rewrite E in Hm.
    now apply py_max_upper.
  - reflexivity.
Qed.

(** ** The sheet list *)

Lemma has_sheet_in name wb :
  has_sheet name wb = true <-> In name (sheetnames wb).
Proof.
  unfold has_sheet. rewrite existsb_exists. split.
  - intros (x & Hin & E). apply String.eqb_eq in E. now subst.
  - intros H. exists name. split; [assumption | apply String.eqb_refl].
Qed.

Lemma other_sheets_absent name wb :
  ~ In name (sheetnames wb) -> other_sheets name wb = wb.
Proof.
  induction wb as [|s r IH]; intros H; [reflexivity|].
  simpl in *. unfold titled.
  destruct (String.eqb_spec (title s) name) as [E|N]; simpl.
  - exfalso. apply H. now left.
  - f_equal. apply IH. intros Hin. apply H. now right.
Qed.

(** In a workbook whose titles differ, removing the sheet of a title leaves
    exactly the other sheets. *)
Lemma remove_sheet_others name wb :
  NoDup (sheetnames wb) -> remove_sheet name wb = other_sheets name wb.
Proof.
  induction wb as [|s r IH]; intros H; [reflexivity|].
  simpl in *. inversion H as [|x l Hnot Hr]; subst. unfold titled.
  destruct (String.eqb_spec (title s) name) as [E|N]; simpl.
  - subst. symmetry. now apply other_sheets_absent.
  - f_equal. now apply IH.
Qed.

Lemma other_sheets_names name wb :
  ~ In name (sheetnames (other_sheets name wb)).
Proof.
  unfold other_sheets, sheetnames. rewrite in_map_iff.
  intros (s & E & Hin). apply filter_In in Hin as [_ Hin].
  unfold titled in Hin. rewrite E, String.eqb_refl in Hin. discriminate.
Qed.

Lemma other_sheets_nodup name wb :
  NoDup (sheetnames wb) -> NoDup (sheetnames (other_sheets name wb)).
Proof.
  induction wb as [|s r IH]; intros H; [constructor|].
  simpl in *. inversion H as [|x l Hnot Hr]; subst.
  destruct (negb (titled name s)); simpl; [|now apply IH].
  constructor; [|now apply IH].
  intros Hin. apply Hnot. unfold other_sheets, sheetnames in *.
  apply in_map_iff in Hin as (s' & E & Hin).
  apply filter_In in Hin as [Hin _]. apply in_map_iff. now exists s'.
Qed.

Lemma same_title_refl t : same_title t t = true.
Proof. apply String.eqb_refl. Qed.

(** A title that no sheet bears, in any letter case, is given as asked. *)
Lemma avoid_duplicate_name_free names value :
  (forall t, In t names -> same_title t value = false) ->
  avoid_duplicate_name names value = value.
Proof.
  intros H. unfold avoid_duplicate_name.
  destruct (existsb (fun n => lower n =? lower value) names) eqn:E;
    [|reflexivity].
  apply existsb_exists in E as (t & Hin & Ht).
  unfold same_title in H. now rewrite (H t Hin) in Ht.
Qed.

Lemma title_free_absent name wb :
  title_free name wb -> ~ In name (sheetnames wb).
Proof.
  intros H Hin. specialize (H name Hin).
  now rewrite same_title_refl in H.
Qed.

Lemma other_sheets_in name wb t :
  In t (sheetnames (other_sheets name wb)) -> In t (sheetnames wb).
Proof.
  unfold other_sheets, sheetnames. rewrite !in_map_iff.
  intros (s & E & Hin). apply filter_In in Hin as [Hin _]. now exists s.
Qed.

(** Without the sheet of a title, a workbook that bore it in no other
    letter case bears it in none. *)
Lemma other_sheets_title_free name wb :
  case_exact name wb -> title_free name (other_sheets name wb).
Proof.
  intros H t Hin. destruct (same_title t name) eqn:E; [|reflexivity].
  exfalso. pose proof (H t (other_sheets_in _ _ _ Hin) E) as Et.
  rewrite Et in Hin. exact (other_sheets_names name wb Hin).
Qed.

Lemma remove_sheet_keeps name wb s :
  In s wb -> title s <> name -> In s (remove_sheet name wb).
Proof.
  induction wb as [|x r IH]; intros Hin Hne; [contradiction|]. simpl.
  destruct (String.eqb_spec (title x) name) as [E|N].
  - destruct Hin as [-> | Hin]; [contradiction | assumption].
  - destruct Hin as [-> | Hin]; [now left | right; now apply IH].
Qed.

Lemma remove_sheet_in name wb s : In s (remove_sheet name wb) -> In s wb.
Proof.
  induction wb as [|x r IH]; [contradiction|]. simpl.
  destruct (title x =? name); [now right|].
  intros [H | H]; [now left | right; now apply IH].
Qed.

(** What the writer makes of a workbook, whatever its titles: sheets of the
    workbook, among them every sheet of another title, then the new sheet
    under the title the library gives it. *)
Lemma write_iteration_sheet_last name data wb :
  exists kept t,
    write_iteration_sheet name data wb
    = kept ++ [{| title := t; rows := sheet_rows data |}]
    /\ (forall s, In s wb -> title s <> name -> In s kept)
    /\ (forall s, In s kept -> In s wb).
Proof.
  unfold write_iteration_sheet, create_sheet.
  destruct (has_sheet name wb); do 2 eexists; (split; [reflexivity|]); split;
    intros s Hin; try intros Hne; try assumption;
    [now apply remove_sheet_keeps | now apply remove_sheet_in in Hin].
Qed.

(** A title that the workbook bears in no letter case: the sheet is added
    under it. *)
Lemma create_when_new name data wb :
  title_free name wb ->
  write_iteration_sheet name data wb
  = wb ++ [{| title := name; rows := sheet_rows data |}].
Proof.
  intros H. unfold write_iteration_sheet, create_sheet.
  destruct (has_sheet name wb) eqn:E.
  - apply has_sheet_in in E. now apply title_free_absent in H.
  - now rewrite avoid_duplicate_name_free.
Qed.

(** Writing the sheet of an iteration into a workbook that bears the title
    in no other letter case: the other sheets in their order, then the new
    sheet. *)
Lemma write_iteration_sheet_others name data wb :
  NoDup (sheetnames wb) -> case_exact name wb ->
  write_iteration_sheet name data wb
  = other_sheets name wb ++ [{| title := name; rows := sheet_rows data |}].
Proof.
  intros H Hc. unfold write_iteration_sheet, create_sheet.
  assert (E : (if has_sheet name wb then remove_sheet name wb else wb)
              = other_sheets name wb).
  { destruct (has_sheet name wb) eqn:E.
    - now apply remove_sheet_others.
    - symmetry. apply other_sheets_absent. intros Hin.
      apply has_sheet_in in Hin. congruence. }
  rewrite E, avoid_duplicate_name_free; [reflexivity|].
  now apply other_sheets_title_free.
Qed.

(** The two sheets of a workbook just created clash with no iteration
    sheet. *)
Lemma baseline_title_free n : title_free (sheet_name_of n) baseline_workbook.
Proof. intros t [<- | [<- | []]]; reflexivity. Qed.

Lemma count_absent name names :
  ~ In name names -> count_occ string_dec names name = 0%nat.
Proof. apply count_occ_not_In. Qed.

(** ** The request path *)

Lemma is_success_error e : is_success (error_result e) = false.
Proof. reflexivity. Qed.

Lemma is_success_success stocks n : is_success (success_result stocks n) = true.
Proof. reflexivity. Qed.

Lemma create_or_get_folder_frame api d w :
  disk (snd (create_or_get_folder api d w)) = disk w
  /\ handler (snd (create_or_get_folder api d w)) = handler w.
Proof.
  unfold create_or_get_folder. repeat case_scrutinee; simpl; auto.
Qed.

(** An upload touches neither the file nor the handler's fields. *)
Lemma upload_file_frame api name d w :
  disk (snd (upload_file api name d w)) = disk w
  /\ handler (snd (upload_file api name d w)) = handler w.
Proof.
  unfold upload_file.
  destruct (create_or_get_folder_frame api d w) as [Hd Hh].
  destruct (create_or_get_folder api d w) as [[r d'] w'] eqn:E.
  simpl in Hd, Hh.
  destruct (negb (service d)); [now split|].
  destruct (negb (folder_known d));
    repeat case_scrutinee; simpl; auto.
Qed.

Lemma upload_if_enabled_frame env w :
  disk (upload_if_enabled env w) = disk w
  /\ current_iteration (handler (upload_if_enabled env w))
     = current_iteration (handler w)
  /\ excel_file (handler (upload_if_enabled env w)) = excel_file (handler w)
  /\ use_google_drive (handler (upload_if_enabled env w))
     = use_google_drive (handler w).
Proof.
  unfold upload_if_enabled.
  destruct (drive_handler (handler w)) as [d|]; [|auto].
  destruct (use_google_drive (handler w) && service d); [|auto].
  destruct (upload_file_frame (drive env) (excel_file (handler w)) d w)
    as [Hd Hh].
  destruct (upload_file (drive env) (excel_file (handler w)) d w)
    as [[r d'] w'].
  simpl in *. now rewrite Hd, Hh.
Qed.

Lemma open_workbook_handler env w :
  handler (snd (open_workbook env w)) = handler w.
Proof.
  unfold open_workbook.
  destruct (path_exists (disk w)); simpl; [reflexivity|].
  destruct (baseline_save env); reflexivity.
Qed.

Lemma open_workbook_stored env w wb :
  disk w = Stored wb -> open_workbook env w = (Returns wb, w).
Proof. intros H. unfold open_workbook. now rewrite H. Qed.

(** What the writer returns and leaves, case by case. *)
Lemma add_stocks_to_excel_cases env stocks alert_data w :
  let n := current_iteration (handler w) in
  let data := build_stock_data alert_data (now env) n stocks in
  let out := add_stocks_to_excel env stocks alert_data w in
  (exists wb w1,
      open_workbook env w = (Returns wb, w1)
      /\ sheet_fault env = None
      /\ final_save env = SaveOk
      /\ fst out = success_result stocks n
      /\ disk (snd out)
         = Stored (write_iteration_sheet (sheet_name_of n) data wb)
      /\ current_iteration (handler (snd out)) = (n + 1)%Z)
  \/ (exists e,
      fst out = error_result e
      /\ current_iteration (handler (snd out)) = n
      /\ ((exists w1, open_workbook env w = (Raises e, w1))
          \/ sheet_fault env = Some e
          \/ exists remains, final_save env = SaveFails e remains)).
Proof.
  intros n data out. subst out. unfold add_stocks_to_excel.
  pose proof (open_workbook_handler env w) as Hh.
  destruct (open_workbook env w) as [[wb|e] w1] eqn:Eo; simpl in Hh.
  - destruct (sheet_fault env) as [e|] eqn:Ef.
    + right. exists e. simpl. rewrite Hh. auto.
    + destruct (final_save env) as [|e remains] eqn:Es.
      * left. exists wb, w1.
        destruct (upload_if_enabled_frame env
                    (set_disk
                       (Stored
                          (write_iteration_sheet
                             (sheet_name_of (current_iteration (handler w)))
                             (build_stock_data alert_data (now env)
                                (current_iteration (handler w)) stocks) wb))
                       w1)) as (Hd & Hi & _).
        simpl in Hd, Hi. rewrite Hh in Hi. simpl.
        rewrite Hi, Hd. fold n. fold data.
        replace (n + 1 - 1)%Z with n by lia.
        repeat split; reflexivity.
      * right. exists e. simpl. rewrite Hh. eauto 6.
  - right. exists e. simpl. rewrite Hh. eauto 6.
Qed.

Lemma sheetnames_app wb1 wb2 :
  sheetnames (wb1 ++ wb2) = sheetnames wb1 ++ sheetnames wb2.
Proof. apply map_app. Qed.

Lemma other_sheets_of_written name data others :
  ~ In name (sheetnames others) ->
  other_sheets name (others ++ [{| title := name; rows := data |}]) = others.
Proof.
  intros H. unfold other_sheets. rewrite filter_app. simpl.
  unfold titled at 2. simpl. rewrite String.eqb_refl. simpl.
  rewrite app_nil_r. now apply other_sheets_absent.
Qed.

Lemma written_once name data others :
  ~ In name (sheetnames others) ->
  count_occ string_dec
    (sheetnames (others ++ [{| title := name; rows := data |}])) name = 1%nat.
Proof.
  intros H. rewrite sheetnames_app, count_occ_app, count_absent by assumption.
  simpl. now destruct (string_dec name name).
Qed.

Lemma written_nodup name data others :
  NoDup (sheetnames others) -> ~ In name (sheetnames others) ->
  NoDup (sheetnames (others ++ [{| title := name; rows := data |}])).
Proof.
  intros Hn H. rewrite sheetnames_app. apply NoDup_app; [assumption| |].
  - simpl. constructor; [intros [] | constructor].
  - intros a Ha [<- | []]. contradiction.
Qed.

Lemma open_workbook_absent env w wb w1 :
  disk w = Absent -> open_workbook env w = (Returns wb, w1) ->
  wb = baseline_workbook.
Proof.
  intros H. unfold open_workbook. rewrite H. simpl.
  destruct (baseline_save env); intros E; now inversion E.
Qed.

Lemma open_workbook_returns env w wb w1 :
  open_workbook env w = (Returns wb, w1) ->
  disk w = Stored wb \/ (disk w = Absent /\ wb = baseline_workbook).
Proof.
  unfold open_workbook. destruct (disk w) as [|e|wb0]; cbn.
  - destruct (baseline_save env); intros E; inversion E. now right.
  - discriminate.
  - intros E. inversion E. now left.
Qed.

(** C6 (as the code has it): an alert is written at iteration N into a
    workbook whose titles differ from one another.  When no sheet bears the
    title Iteration_N in another letter case, the file then holds the
    former sheets other than Iteration_N, untouched and in their order,
    followed by one fresh sheet Iteration_N with the header and the rows of
    this alert: there is exactly one sheet of that name and no other sheet
    is changed, merged or dropped.  Without a file, the result is the two
    baseline sheets and the fresh sheet.  Whatever the titles, the file
    holds sheets of the former workbook, every sheet of another title among
    them, followed by the new sheet under the title the library gives
    it. *)
Theorem iteration_sheet_replaced_others_kept :
  forall env stocks alert_data w,
    let n := current_iteration (handler w) in
    let name := sheet_name_of n in
    let fresh :=
      {| title := name;
         rows := sheet_rows
                   (build_stock_data alert_data (now env) n stocks) |} in
    let out := add_stocks_to_excel env stocks alert_data w in
    is_success (fst out) = true ->
    (forall wb,
        disk w = Stored wb -> NoDup (sheetnames wb) -> case_exact name wb ->
        exists wb',
          disk (snd out) = Stored wb'
          /\ wb' = other_sheets name wb ++ [fresh]
          /\ count_occ string_dec (sheetnames wb') name = 1%nat
          /\ other_sheets name wb' = other_sheets name wb
          /\ (forall s, In s wb -> title s <> name -> In s wb')
          /\ NoDup (sheetnames wb'))
    /\ (disk w = Absent ->
        disk (snd out) = Stored (baseline_workbook ++ [fresh]))
    /\ (forall wb,
        disk w = Stored wb ->
        exists kept t,
          disk (snd out)
          = Stored (kept ++ [{| title := t; rows := rows fresh |}])
          /\ (forall s, In s wb -> title s <> name -> In s kept)
          /\ (forall s, In s kept -> In s wb)).
Proof.
  intros env stocks alert_data w n name fresh out Hs.
  destruct (add_stocks_to_excel_cases env stocks alert_data w)
    as [(wb0 & w1 & Ho & _ & _ & _ & Hd & _) | (e & He & _)];
    [|fold out in He; rewrite He in Hs; discriminate].
  fold out n name in Hd. split; [|split].
  - intros wb Hw Hn Hc. rewrite (open_workbook_stored env w wb Hw) in Ho.
    inversion Ho; subst wb0 w1; clear Ho.
    rewrite write_iteration_sheet_others in Hd by assumption.
    fold fresh in Hd.
    pose proof (other_sheets_names name wb) as Hno.
    exists (other_sheets name wb ++ [fresh]).
    split; [assumption|]. unfold fresh. split; [reflexivity|].
    split; [now apply written_once|].
    split; [now rewrite other_sheets_of_written by assumption|].
    split.
    + intros s Hin Ht. apply in_or_app. left.
      apply filter_In. split; [assumption|].
      unfold titled. apply negb_true_iff. now apply String.eqb_neq.
    + apply written_nodup; [now apply other_sheets_nodup | assumption].
  - intros Hw. rewrite (open_workbook_absent env w wb0 w1 Hw Ho) in Hd.
    rewrite Hd, create_when_new by apply baseline_title_free. reflexivity.
  - intros wb Hw. rewrite (open_workbook_stored env w wb Hw) in Ho.
    inversion Ho; subst wb0 w1; clear Ho.
    destruct (write_iteration_sheet_last name
                (build_stock_data alert_data (now env) n stocks) wb)
      as (kept & t & E & Hk & Hi).
    exists kept, t. rewrite Hd, E. repeat split; assumption.
Qed.

Lemma process_cases env alert_data w :
  (extract_stocks_from_alert alert_data = []
   /\ process_chartink_alert env alert_data w = (no_stocks_result, w))
  \/ (exists d,
       alert_data = PDict d
       /\ extract_stocks_from_alert alert_data <> []
       /\ process_chartink_alert env alert_data w
          = add_stocks_to_excel env (extract_stocks_from_alert alert_data)
              d w).
Proof.
  unfold process_chartink_alert.
  destruct (extract_stocks_from_alert alert_data) as [|s l] eqn:E.
  - left. now split.
  - destruct alert_data; try discriminate.
    right. exists d. repeat split. discriminate.
Qed.

(** What one alert does to the counter and to the file, by the kind of its
    result. *)
Lemma process_counter env alert_data w :
  let n := current_iteration (handler w) in
  let out := process_chartink_alert env alert_data w in
  (fst out = success_result (extract_stocks_from_alert alert_data) n
   /\ current_iteration (handler (snd out)) = (n + 1)%Z
   /\ ~ write_raises env w
   /\ exists wb,
        (disk w = Stored wb \/ (disk w = Absent /\ wb = baseline_workbook))
        /\ disk (snd out)
           = Stored (write_iteration_sheet (sheet_name_of n)
                       (build_stock_data (alert_dict alert_data) (now env) n
                          (extract_stocks_from_alert alert_data)) wb))
  \/ ((exists e, fst out = error_result e)
      /\ current_iteration (handler (snd out)) = n
      /\ (extract_stocks_from_alert alert_data = [] \/ write_raises env w)).
Proof.
  intros n out. subst out.
  destruct (process_cases env alert_data w) as [[He ->] | (d & -> & Hne & ->)].
  - right. split; [now exists "No stocks found in alert"|]. auto.
  - destruct (add_stocks_to_excel_cases env
                (extract_stocks_from_alert (PDict d)) d w)
      as [(wb & w1 & Ho & Hf & Hs & Hr & Hd & Hi)
         | (e & Hr & Hi & Hw)].
    + left. fold n in Hr, Hd, Hi. repeat split; try assumption.
      * intros [(e & w2 & H) | [(e & H) | (e & r & H)]]; congruence.
      * exists wb. split; [exact (open_workbook_returns _ _ _ _ Ho)|].
        exact Hd.
    + right. split; [now exists e|]. split; [assumption|]. right.
      destruct Hw as [(w1 & H) | [H | (r & H)]].
      * left. now exists e, w1.
      * right. left. now exists e.
      * right. right. now exists e, r.
Qed.

(** C7: a successfully processed alert moves the counter up by exactly one,
    and it does so with the workbook written: no step of the write raised,
    and the file is a workbook whose last sheet holds the rows of this
    alert.  An alert that is not processed successfully - no symbols
    extracted, or the write raised - returns an error result and leaves
    the counter where it was, so that the next success carries the same
    iteration number. *)
Theorem counter_moves_only_on_success :
  forall env alert_data w,
    let n := current_iteration (handler w) in
    let out := process_chartink_alert env alert_data w in
    (is_success (fst out) = true ->
       current_iteration (handler (snd out)) = (n + 1)%Z
       /\ fst out = success_result (extract_stocks_from_alert alert_data) n
       /\ ~ write_raises env w
       /\ exists kept fresh,
            disk (snd out) = Stored (kept ++ [fresh])
            /\ rows fresh = alert_rows env alert_data n)
    /\ (is_success (fst out) = false ->
       current_iteration (handler (snd out)) = n
       /\ exists e, fst out = error_result e)
    /\ (extract_stocks_from_alert alert_data = [] \/ write_raises env w ->
       is_success (fst out) = false)
    /\ (is_success (fst out) = false ->
       forall env' alert_data',
         let out' := process_chartink_alert env' alert_data' (snd out) in
         is_success (fst out') = true ->
         fst out'
         = success_result (extract_stocks_from_alert alert_data') n).
Proof.
  intros env alert_data w n out.
  assert (Hfail : is_success (fst out) = false ->
                  current_iteration (handler (snd out)) = n
                  /\ exists e, fst out = error_result e).
  { destruct (process_counter env alert_data w)
      as [(Hr & _) | (He & Hi & _)]; fold out in Hr || fold out n in He, Hi.
    - rewrite Hr. discriminate.
    - intros _. now split. }
  split; [|split; [exact Hfail|split]].
  - destruct (process_counter env alert_data w)
      as [(Hr & Hi & Hw & (wb & _ & Hd)) | ((e & He) & _)].
    + intros _. fold out n in Hr, Hi, Hd.
      do 3 (split; [assumption|]).
      destruct (write_iteration_sheet_last (sheet_name_of n)
                  (build_stock_data (alert_dict alert_data) (now env) n
                     (extract_stocks_from_alert alert_data)) wb)
        as (kept & t & E & _).
      rewrite E in Hd. do 2 eexists. split; [exact Hd | reflexivity].
    + fold out in He. rewrite He. discriminate.
  - intros Hcause.
    destruct (process_counter env alert_data w)
      as [(Hr & _ & Hw & _) | ((e & He) & _)].
    + destruct Hcause as [He | Hc]; [|contradiction].
      destruct (process_cases env alert_data w) as [[_ H] | (d & _ & Hne & _)];
        [|contradiction].
      fold out in H. now rewrite H.
    + fold out in He. now rewrite He.
  - intros Hf env' alert_data' out' Hs'.
    destruct (Hfail Hf) as [Hn _].
    destruct (process_counter env' alert_data' (snd out))
      as [(Hr & _) | ((e & He) & _)]; fold out' in Hr || fold out' in He.
    + now rewrite Hn in Hr.
    + rewrite He in Hs'. discriminate.
Qed.

(** C9: a POST with an empty body is answered with HTTP 500 and the text
    of the exception that reading the body raised, not with HTTP 400 and
    "No data received"; nothing is processed.  The answer 400 with the body
    {"status": "error", "message": "No data received"} is the one of a
    request whose body decodes to a value that counts as false (null, an
    empty object) and that has no form field; nothing is processed then
    either. *)
Theorem empty_body_is_answered_500 :
  (forall e env w,
      chartink_webhook env (empty_post e) w
      = (PDict [("status", PStr "error"); ("message", PStr e)], 500%Z, w))
  /\ (forall e env w,
      fst (chartink_webhook env (empty_post e) w)
      <> (PDict [("status", PStr "error");
                 ("message", PStr "No data received")], 400%Z))
  /\ (forall env req w j,
      get_json req = Returns j ->
      truthy j = false ->
      form req = [] ->
      chartink_webhook env req w
      = (PDict [("status", PStr "error");
                ("message", PStr "No data received")],
         400%Z, w)).
Proof.
  split; [reflexivity|]. split; [discriminate|].
  intros env req w j Hj Ht Hf. unfold chartink_webhook.
  now rewrite Hj, Ht, Hf.
Qed.

Lemma webhook_cases env req w :
  (exists e, get_json req = Raises e
             /\ chartink_webhook env req w = (error_result e, 500%Z, w))
  \/ (exists j, get_json req = Returns j
                /\ chartink_webhook env req w = (no_data_result, 400%Z, w))
  \/ (exists j alert_data,
        get_json req = Returns j
        /\ alert_data = (if truthy j then j else form_to_dict (form req))
        /\ truthy alert_data = true
        /\ chartink_webhook env req w
           = (fst (process_chartink_alert env alert_data w),
              if is_success (fst (process_chartink_alert env alert_data w))
              then 200%Z else 400%Z,
              snd (process_chartink_alert env alert_data w))).
Proof.
  unfold chartink_webhook. destruct (get_json req) as [j|e].
  - destruct (truthy (if truthy j then j else form_to_dict (form req))) eqn:T;
      simpl.
    + right. right. exists j, (if truthy j then j else form_to_dict (form req)).
      repeat split; try assumption.
      now destruct (process_chartink_alert env _ w).
    + right. left. now exists j.
  - left. now exists e.
Qed.

Lemma extract_nonempty_truthy alert_data :
  extract_stocks_from_alert alert_data <> [] -> truthy alert_data = true.
Proof.
  destruct alert_data; simpl; try congruence.
  destruct d; [simpl; congruence | reflexivity].
Qed.

Lemma write_raises_with_drive api env w :
  write_raises (with_drive api env) w <-> write_raises env w.
Proof. reflexivity. Qed.

Lemma create_or_get_folder_transfers api d w :
  transfers (snd (create_or_get_folder api d w)) = transfers w.
Proof.
  unfold create_or_get_folder, transfers.
  repeat case_scrutinee; simpl; try reflexivity.
  rewrite filter_app. simpl. now rewrite app_nil_r.
Qed.

Lemma create_or_get_folder_fails api d w e :
  service d = true ->
  folder_exception api = Some e ->
  create_or_get_folder api d w = (None, d, print (LogFolderError e) w).
Proof.
  intros Hs. unfold create_or_get_folder, folder_exception. rewrite Hs.
  cbn [negb].
  repeat case_scrutinee; intros He; try discriminate; now injection He as <-.
Qed.

(** C8 (as the code has it): when the write of the workbook does not raise,
    the webhook answers HTTP 200 with the success result, the accepted
    symbols and the iteration number, whatever the remote store does.  An
    exception of the listing or transfer calls is caught and logged and no
    file is transferred.  An exception of the folder resolution is caught
    and logged, no folder id is kept, and the upload goes on without a
    folder: if the listing and transfer calls return, the first file the
    listing found is updated or, when it found none, the file is created
    with no parent folder.  Without a service nothing is attempted, the
    reason having been printed when the server started. *)
Theorem upload_failure_never_surfaces :
  (forall env req w j alert_data,
      get_json req = Returns j ->
      alert_data = (if truthy j then j else form_to_dict (form req)) ->
      extract_stocks_from_alert alert_data <> [] ->
      ~ write_raises env w ->
      forall api,
        let out := chartink_webhook (with_drive api env) req w in
        fst out
        = (success_result (extract_stocks_from_alert alert_data)
             (current_iteration (handler w)), 200%Z)
        /\ current_iteration (handler (snd out))
           = (current_iteration (handler w) + 1)%Z)
  /\ (forall api name d w e,
      service d = true ->
      upload_exception api = Some e ->
      let out := upload_file api name d w in
      fst (fst out) = None
      /\ In (LogUploadError e) (console (snd out))
      /\ transfers (snd out) = transfers w)
  /\ (forall api name d w e,
      service d = true ->
      folder_known d = false ->
      folder_exception api = Some e ->
      let out := upload_file api name d w in
      In (LogFolderError e) (console (snd out))
      /\ snd (fst out) = d
      /\ (upload_exception api = None ->
          (files_list api = Returns [] ->
           transfers (snd out) = transfers w ++ [FileCreate name []])
          /\ (forall i rest,
                files_list api = Returns (i :: rest) ->
                transfers (snd out) = transfers w ++ [FileUpdate i])))
  /\ (forall api name d w,
      service d = false -> upload_file api name d w = (None, d, w))
  /\ (forall s f d,
      drive_handler (handler (startup s f)) = Some d ->
      service d = false ->
      In LogDriveDisabled (console (startup s f))
      \/ exists e, In (LogDriveInitError e) (console (startup s f))).
Proof.
  split; [|split; [|split; [|split]]].
  - intros env req w j alert_data Hj Ha Hne Hw api out. subst out.
    pose proof (extract_nonempty_truthy _ Hne) as Ht.
    unfold chartink_webhook. rewrite Hj. cbv zeta. rewrite <- Ha, Ht.
    cbn [negb].
    destruct (process_counter (with_drive api env) alert_data w)
      as [(Hr & Hi & _) | (_ & _ & [He | Hc])].
    + destruct (process_chartink_alert (with_drive api env) alert_data w)
        as [result w'].
      simpl in Hr, Hi. subst result. now rewrite is_success_success.
    + contradiction.
    + now apply write_raises_with_drive in Hc.
  - intros api name d w e Hs He out. subst out.
    unfold upload_file, upload_exception in *. rewrite Hs. cbn [negb].
    pose proof (create_or_get_folder_transfers api d w) as Hf.
    destruct (create_or_get_folder api d w) as [[r d1] w1]. simpl in Hf.
    unfold transfers in *.
    destruct (negb (folder_known d));
      repeat case_scrutinee; try discriminate;
      injection He as <-; simpl;
      (split; [|split];
       [reflexivity | apply in_or_app; right; now left | auto]).
  - intros api name d w e Hs Hk He out. subst out.
    unfold upload_file. rewrite Hs, Hk. cbn [negb].
    rewrite (create_or_get_folder_fails api d w e Hs He).
    rewrite Hk. unfold upload_exception, transfers.
    split; [|split].
    + repeat case_scrutinee; cbn [fst snd print sent console];
        rewrite !in_app_iff; cbn [In]; auto 6.
    + repeat case_scrutinee; reflexivity.
    + intros Hu. split; [intros Hl | intros i rest Hl];
        rewrite Hl in Hu |- *;
        (destruct (media_file_upload api); [|discriminate]).
      * destruct (files_create api); [|discriminate].
        cbn [fst snd print sent remote]. rewrite filter_app. reflexivity.
      * destruct (files_update api); [|discriminate].
        cbn [fst snd print sent remote]. rewrite filter_app. reflexivity.
  - intros api name d w Hs. unfold upload_file. now rewrite Hs.
  - intros s f d. unfold startup, initialize_drive.
    destruct (credentials_exist s); simpl.
    + destruct (build_service s) as [u|e]; simpl; intros [= <-]; simpl;
        [discriminate|].
      intros _. right. exists e. now left.
    + intros _ _. left. now left.
Qed.

Lemma upload_failure_never_surfaces_witness :
  (let out := chartink_webhook (with_drive folder_failing_api sample_env)
                sample_request sample_world in
   fst out = (success_result ["TCS"; "INFY"] 1, 200%Z)
   /\ current_iteration (handler (snd out)) = 2%Z)
  /\ (let out := upload_file folder_failing_api "Chartink_Workflow.xlsx"
                   {| service := true; folder_id := None |} sample_world in
      In (LogFolderError "HttpError 500") (console (snd out))
      /\ snd (fst out) = {| service := true; folder_id := None |}
      /\ (upload_exception folder_failing_api = None ->
          (files_list folder_failing_api = Returns [] ->
           transfers (snd out)
           = transfers sample_world
             ++ [FileCreate "Chartink_Workflow.xlsx" []])
          /\ (forall i rest,
                files_list folder_failing_api = Returns (i :: rest) ->
                transfers (snd out)
                = transfers sample_world ++ [FileUpdate i]))).
Proof.
  split.
  - apply (proj1 upload_failure_never_surfaces sample_env sample_request
             sample_world sample_alert sample_alert).
    + reflexivity.
    + reflexivity.
    + discriminate.
    + intros [(e & w1 & H) | [(e & H) | (e & r & H)]]; discriminate.
  - apply (proj1 (proj2 (proj2 upload_failure_never_surfaces))
             folder_failing_api "Chartink_Workflow.xlsx"
             {| service := true; folder_id := None |} sample_world
             "HttpError 500"); reflexivity.
Defined.

(** C8, against the sentence as documented: the folder resolution raises,
    the error is logged, and the file is transferred all the same, into
    no folder. *)
Lemma folder_error_upload_goes_on :
  let out := chartink_webhook sample_env sample_request sample_world in
  folder_exception (drive sample_env) = Some "HttpError 500"
  /\ snd (fst out) = 200%Z
  /\ In (LogFolderError "HttpError 500") (console (snd out))
  /\ remote (snd out) = [FileCreate "Chartink_Workflow.xlsx" []]
  /\ transfers (snd out) <> transfers sample_world.
Proof.
  vm_compute. repeat split; auto. discriminate.
Qed.

Lemma iteration_sheet_replaced_others_kept_witness :
  let out := add_stocks_to_excel sample_env ["TCS"] [] replay_world in
  exists wb',
    disk (snd out) = Stored wb'
    /\ wb' = [sheet_titled "Master_List"; sheet_titled "TradingView_Export";
              {| title := "Iteration_1";
                 rows := sheet_rows
                           (build_stock_data [] sample_clock 1 ["TCS"]) |}]
    /\ count_occ string_dec (sheetnames wb') "Iteration_1" = 1%nat
    /\ other_sheets "Iteration_1" wb'
       = [sheet_titled "Master_List"; sheet_titled "TradingView_Export"]
    /\ (forall s,
          In s [sheet_titled "Master_List"; sheet_titled "Iteration_1";
                sheet_titled "TradingView_Export"] ->
          title s <> "Iteration_1" -> In s wb')
    /\ NoDup (sheetnames wb').
Proof.
  apply (proj1 (iteration_sheet_replaced_others_kept sample_env ["TCS"] []
                  replay_world eq_refl)
           [sheet_titled "Master_List"; sheet_titled "Iteration_1";
            sheet_titled "TradingView_Export"]).
  - reflexivity.
  - repeat constructor; simpl; intuition discriminate.
  - intros t [<- | [<- | [<- | []]]] E; try reflexivity; discriminate.
Defined.

(** C6, against the sentence as documented: over a workbook whose only
    sheet is named iteration_1, in lower case, the server starts at
    iteration 1 and finds no sheet Iteration_1 to remove; the library takes
    the title for one in use and stores the new sheet as Iteration_11.  No
    sheet is named Iteration_1 afterwards, and a restart reads 12. *)
Lemma lower_case_title_takes_the_name :
  let out := add_stocks_to_excel sample_env ["TCS"] [] shadowed_world in
  current_iteration (handler shadowed_world) = 1%Z
  /\ NoDup (sheetnames [sheet_titled "iteration_1"])
  /\ is_success (fst out) = true
  /\ exists wb',
       disk (snd out) = Stored wb'
       /\ sheetnames wb' = ["iteration_1"; "Iteration_11"]
       /\ count_occ string_dec (sheetnames wb') "Iteration_1" <> 1%nat
       /\ get_next_iteration_number (Stored wb') = 12%Z.
Proof.
  cbv zeta. split; [reflexivity|].
  split; [repeat constructor; simpl; tauto|].
  split; [reflexivity|].
  eexists. split; [reflexivity|]. split; [reflexivity|].
  split; [discriminate | reflexivity].
Qed.

Lemma counter_moves_only_on_success_witness :
  current_iteration
    (handler (snd (process_chartink_alert sample_env sample_alert
                     sample_world))) = 2%Z
  /\ is_success
       (fst (process_chartink_alert sample_env (PDict [("stocks", PInt 5)])
               sample_world)) = false.
Proof.
  split.
  - apply (proj1 (counter_moves_only_on_success sample_env sample_alert
                    sample_world)).
    reflexivity.
  - apply (proj1 (proj2 (proj2 (counter_moves_only_on_success sample_env
                                  (PDict [("stocks", PInt 5)])
                                  sample_world)))).
    left. reflexivity.
Defined.

Lemma empty_body_is_answered_500_witness :
  chartink_webhook sample_env {| get_json := Returns PNone; form := [] |}
    sample_world
  = (PDict [("status", PStr "error"); ("message", PStr "No data received")],
     400%Z, sample_world).
Proof.
  apply (proj2 (proj2 empty_body_is_answered_500) sample_env
           {| get_json := Returns PNone; form := [] |} sample_world PNone);
    reflexivity.
Defined.

(** C4 (as the code has it): a payload that is not a dict, a dict without a
    [stocks] field, and a dict whose [stocks] field is a number, a boolean
    or null give no symbols, and the alert is answered with the handled
    result "No stocks found in alert" (HTTP 400), nothing having been
    written.  A [stocks] field that is a mapping is run through by its
    keys, which are cleaned like the entries of a list. *)
Theorem no_stocks_without_iterable_field :
  (forall alert_data,
      lacks_stocks alert_data = true ->
      extract_stocks_from_alert alert_data = []
      /\ (forall env w,
            process_chartink_alert env alert_data w
            = (error_result "No stocks found in alert", w))
      /\ (forall env req w j,
            get_json req = Returns j ->
            alert_data = (if truthy j then j else form_to_dict (form req)) ->
            truthy alert_data = true ->
            chartink_webhook env req w
            = (PDict [("status", PStr "error");
                      ("message", PStr "No stocks found in alert")],
               400%Z, w)))
  /\ (forall d m,
      dict_get d "stocks" = Some (PDict m) ->
      extract_stocks_from_alert (PDict d)
      = filter accepted (map clean (dict_keys m))).
Proof.
  split; [|exact extract_of_mapping].
  intros alert_data H. pose proof (extract_lacking _ H) as He.
  assert (Hp : forall env w,
             process_chartink_alert env alert_data w
             = (error_result "No stocks found in alert", w)).
  { intros env w. unfold process_chartink_alert. now rewrite He. }
  split; [assumption|]. split; [assumption|].
  intros env req w j Hj Ha Ht. unfold chartink_webhook.
  rewrite Hj. cbv zeta. rewrite <- Ha, Ht. cbn [negb].
  now rewrite Hp.
Qed.

Lemma no_stocks_without_iterable_field_witness :
  extract_stocks_from_alert (PDict [("scan_name", PStr "x"); ("stocks", PInt 7)])
  = []
  /\ extract_stocks_from_alert
       (PDict [("stocks", PDict [("nse:tcs", PInt 3500); (EmptyString, PNone)])])
     = ["TCS"].
Proof.
  split.
  - apply (proj1 no_stocks_without_iterable_field
             (PDict [("scan_name", PStr "x"); ("stocks", PInt 7)])).
    reflexivity.
  - rewrite (proj2 no_stocks_without_iterable_field _
               [("nse:tcs", PInt 3500); (EmptyString, PNone)]); reflexivity.
Defined.

(** C4, against the sentence as documented: a [stocks] field that is a
    mapping yields its keys. *)
Lemma mapping_field_yields_symbols :
  extract_stocks_from_alert (PDict [("stocks", PDict [("TCS", PInt 3500)])])
  <> [].
Proof. vm_compute. discriminate. Qed.

(** ** The initial iteration number *)

Lemma startup_counter s f :
  current_iteration (handler (startup s f)) = get_next_iteration_number f
  /\ disk (startup s f) = f.
Proof.
  unfold startup. now destruct (initialize_drive s).
Qed.

Lemma numbers_of_app l1 l2 :
  numbers_of (l1 ++ l2) = numbers_of l1 ++ numbers_of l2.
Proof. apply flat_map_app. Qed.

(** A sheet whose name carries no number does not count in the scan. *)
Lemma scan_skips_unnumbered wb1 s wb2 :
  sheet_number (title s) = None ->
  get_next_iteration_number (Stored (wb1 ++ s :: wb2))
  = get_next_iteration_number (Stored (wb1 ++ wb2)).
Proof.
  intros H. rewrite !get_next_stored. unfold sheetnames.
  rewrite !map_app, !filter_app, !numbers_of_app. cbn [map filter].
  destruct (startswith "Iteration_" (title s)); [|reflexivity].
  cbn [numbers_of flat_map]. now rewrite H.
Qed.

(** Two names that carry the same number count alike. *)
Lemma scan_by_number s s' wb :
  startswith "Iteration_" (title s) = true ->
  startswith "Iteration_" (title s') = true ->
  sheet_number (title s) = sheet_number (title s') ->
  get_next_iteration_number (Stored (s :: wb))
  = get_next_iteration_number (Stored (s' :: wb)).
Proof.
  intros H H' E. rewrite !get_next_stored. cbn [sheetnames map filter].
  rewrite H, H'. cbn [numbers_of flat_map]. now rewrite E.
Qed.

(** C1 (as the code has it): the initial iteration number is 1 when there
    is no workbook file, when the file cannot be loaded, and when no sheet
    whose name starts with Iteration_ carries a number; otherwise it is one
    more than the largest number carried by such a sheet.  The sheet the
    writer names for iteration N carries N.  Without a workbook the first
    processed alert creates iteration 1, and over sheets Iteration_1 to
    Iteration_5 the number is 6. *)
Theorem initial_iteration_number :
  (forall f, (forall n, ~ found f n) -> get_next_iteration_number f = 1%Z)
  /\ (forall f,
      (exists n, found f n) ->
      exists n, found f n
                /\ (forall m, found f m -> (m <= n)%Z)
                /\ get_next_iteration_number f = (n + 1)%Z)
  /\ (forall n,
      startswith "Iteration_" (sheet_name_of n) = true
      /\ sheet_number (sheet_name_of n) = Some n)
  /\ (forall s env req,
      let out := chartink_webhook env req (startup s Absent) in
      is_success (fst (fst out)) = true ->
      (exists stocks, fst out = (success_result stocks 1, 200%Z))
      /\ exists wb, disk (snd out) = Stored wb
                    /\ In "Iteration_1" (sheetnames wb))
  /\ (forall wb,
      sheetnames wb
      = ["Master_List"; "TradingView_Export"; "Iteration_1"; "Iteration_2";
         "Iteration_3"; "Iteration_4"; "Iteration_5"] ->
      get_next_iteration_number (Stored wb) = 6%Z).
Proof.
  split; [exact scan_without_numbers|].
  split; [exact scan_with_numbers|].
  split; [intros n; split;
          [apply sheet_name_starts | apply sheet_number_of_name]|].
  split.
  - intros s env req out Hs. subst out.
    destruct (startup_counter s Absent) as [Hc _]. simpl in Hc.
    destruct (webhook_cases env req (startup s Absent))
      as [(e & _ & E) | [(j & _ & E) | (j & a & _ & _ & _ & E)]];
      rewrite E in Hs |- *; try discriminate.
    simpl in Hs |- *. rewrite Hs.
    destruct (process_counter env a (startup s Absent))
      as [(Hr & _ & _ & (wb & Hw & Hd)) | ((e & He) & _)].
    + rewrite Hc in Hr, Hd. split; [eexists; now rewrite Hr|].
      destruct (startup_counter s Absent) as [_ Ha]. rewrite Ha in Hw.
      destruct Hw as [Hw | [_ ->]]; [discriminate|].
      rewrite create_when_new in Hd by apply (baseline_title_free 1).
      eexists. split; [exact Hd|].
      rewrite sheetnames_app. apply in_or_app. right. now left.
    + rewrite He in Hs. discriminate.
  - intros wb H. rewrite get_next_stored, H. reflexivity.
Qed.

Lemma initial_iteration_number_witness :
  exists n,
    found (Stored [sheet_titled "Iteration_3"; sheet_titled "Master_List";
                   sheet_titled "Iteration_12_old"; sheet_titled "Iteration_x"])
      n
    /\ (forall m,
          found (Stored [sheet_titled "Iteration_3";
                         sheet_titled "Master_List";
                         sheet_titled "Iteration_12_old";
                         sheet_titled "Iteration_x"]) m -> (m <= n)%Z)
    /\ get_next_iteration_number
         (Stored [sheet_titled "Iteration_3"; sheet_titled "Master_List";
                  sheet_titled "Iteration_12_old"; sheet_titled "Iteration_x"])
       = (n + 1)%Z.
Proof.
  apply (proj1 (proj2 initial_iteration_number)).
  exists 3%Z. exists "Iteration_3". repeat split. now left.
Defined.

(** C1, against the sentence as documented: a workbook whose only iteration
    sheet is named Iteration_old has a sheet whose name starts with
    Iteration_, yet there is no N to take the maximum of; and over
    Iteration_1 and Iteration_2_old the scan gives 3, not 2. *)
Lemma documented_initial_iteration_fails :
  ~ documented_initial_iteration (Stored [sheet_titled "Iteration_old"])
      (get_next_iteration_number (Stored [sheet_titled "Iteration_old"]))
  /\ ~ documented_initial_iteration
         (Stored [sheet_titled "Iteration_1"; sheet_titled "Iteration_2_old"])
         (get_next_iteration_number
            (Stored [sheet_titled "Iteration_1";
                     sheet_titled "Iteration_2_old"])).
Proof.
  split.
  - unfold documented_initial_iteration. simpl existsb. cbv iota.
    intros (n & [H | []] & _). simpl in H.
    pose proof (sheet_number_of_name n) as E. rewrite <- H in E.
    vm_compute in E. discriminate.
  - unfold documented_initial_iteration. simpl existsb. cbv iota.
    replace (get_next_iteration_number _) with 3%Z by (vm_compute; reflexivity).
    intros (n & Hin & _ & E). assert (n = 2%Z) by lia. subst n.
    vm_compute in Hin. destruct Hin as [H | [H | []]]; discriminate.
Qed.

Lemma found_or_not f : (exists n, found f n) \/ (forall n, ~ found f n).
Proof.
  destruct f as [|e|wb]; [right; intros n [] | right; intros n [] |].
  cbn [found].
  destruct (numbers_of (filter (startswith "Iteration_") (sheetnames wb)))
    as [|n ns] eqn:E.
  - right. intros n H. apply numbered_in in H. now rewrite E in H.
  - left. exists n. apply numbered_in. rewrite E. now left.
Qed.

(** C10 (as the code has it): the scan always returns an integer, and one
    of at least 1 when no number it finds is negative.  A sheet whose
    token after Iteration does not parse is passed over, Iteration_2_old
    counts as 2, and a file that cannot be loaded gives 1. *)
Theorem startup_scan_result :
  (forall f,
      (forall n, found f n -> (0 <= n)%Z) ->
      (1 <= get_next_iteration_number f)%Z)
  /\ (forall wb1 s wb2,
      sheet_number (title s) = None ->
      get_next_iteration_number (Stored (wb1 ++ s :: wb2))
      = get_next_iteration_number (Stored (wb1 ++ wb2)))
  /\ (sheet_number "Iteration_2_old" = Some 2%Z
      /\ forall content content' wb,
          get_next_iteration_number
            (Stored ({| title := "Iteration_2_old"; rows := content |} :: wb))
          = get_next_iteration_number
              (Stored ({| title := "Iteration_2"; rows := content' |} :: wb)))
  /\ (forall e, get_next_iteration_number (Unreadable e) = 1%Z)
  /\ get_next_iteration_number Absent = 1%Z.
Proof.
  split; [|split; [exact scan_skips_unnumbered|split; [|split]]].
  - intros f H.
    destruct (found_or_not f) as [(n & Hn) | Hno].
    + destruct (scan_with_numbers f (ex_intro _ n Hn)) as (k & Hk & _ & ->).
      specialize (H k Hk). lia.
    + rewrite (scan_without_numbers f Hno). lia.
  - split; [reflexivity|]. intros content content' wb.
    apply scan_by_number; reflexivity.
  - reflexivity.
  - reflexivity.
Qed.

Lemma startup_scan_result_witness :
  (1 <= get_next_iteration_number
          (Stored [sheet_titled "Iteration_3"; sheet_titled "Master_List";
                   sheet_titled "Iteration_0"]))%Z.
Proof.
  apply (proj1 startup_scan_result). intros n H.
  apply numbered_in in H. vm_compute in H.
  destruct H as [<- | [<- | []]]; lia.
Defined.

(** C10, against the sentence as documented: a sheet named Iteration_-3
    carries the number -3, and the scan returns -2. *)
Lemma negative_sheet_number_goes_below_one :
  get_next_iteration_number (Stored [sheet_titled "Iteration_-3"]) = (-2)%Z
  /\ ~ (1 <= get_next_iteration_number
               (Stored [sheet_titled "Iteration_-3"]))%Z.
Proof.
  split; [reflexivity|]. vm_compute. intros H. now apply H.
Qed.

(** * Further properties of the code *)

(** ** What the normalizer returns *)

Lemma strings_of_in s l : In s (strings_of l) -> In (PStr s) l.
Proof.
  unfold strings_of. rewrite in_flat_map. intros (v & Hv & Hs).
  destruct v; try contradiction. destruct Hs as [<- | []]. assumption.
Qed.

Lemma clean_loop_in l x :
  In x (clean_loop l) ->
  accepted x = true /\ exists s, In (PStr s) l /\ x = clean s.
Proof.
  rewrite clean_loop_filter. intros H. apply filter_In in H as [H Ha].
  split; [assumption|]. apply in_map_iff in H as (s & <- & Hs).
  exists s. split; [now apply strings_of_in | reflexivity].
Qed.

Lemma accepted_bounds x :
  accepted x = true -> x <> EmptyString /\ (length x <= 20)%nat.
Proof.
  unfold accepted. rewrite andb_true_iff, negb_true_iff, Nat.leb_le.
  intros [H1 H2]. split; [now apply String.eqb_neq | assumption].
Qed.

(** X1: whatever the payload, a symbol the normalizer returns is not empty,
    has at most 20 characters, holds no lower-case letter, and is the
    cleaned form of some string. *)
Theorem every_symbol_is_clean :
  forall alert_data x,
    In x (extract_stocks_from_alert alert_data) ->
    x <> EmptyString
    /\ (length x <= 20)%nat
    /\ no_lowercase x = true
    /\ exists s, x = clean s.
Proof.
  intros alert_data x H.
  assert (Hl : exists l, In x (clean_loop l)).
  { unfold extract_stocks_from_alert in H.
    destruct alert_data; try contradiction.
    destruct (dict_get d "stocks") as [v|]; [|contradiction].
    destruct v; simpl in H; try contradiction; eauto. }
  destruct Hl as (l & Hl).
  apply clean_loop_in in Hl as (Ha & s & _ & ->).
  apply accepted_bounds in Ha as [Hne Hlen].
  repeat split; try assumption; [apply clean_no_lowercase | now exists s].
Qed.

Lemma every_symbol_is_clean_witness :
  "INFY" <> EmptyString
  /\ (length "INFY" <= 20)%nat
  /\ no_lowercase "INFY" = true
  /\ exists s, "INFY" = clean s.
Proof.
  apply (every_symbol_is_clean sample_alert "INFY").
  vm_compute. right. now left.
Defined.

(** ** Letter case and white space around a symbol *)

Lemma is_space_upper c : is_space (upper_char c) = is_space c.
Proof. destruct c as [[] [] [] [] [] [] [] []]; reflexivity. Qed.

Lemma upper_char_idem c : upper_char (upper_char c) = upper_char c.
Proof. destruct c as [[] [] [] [] [] [] [] []]; reflexivity. Qed.

Lemma upper_idem s : upper (upper s) = upper s.
Proof.
  induction s as [|c r IH]; simpl; [reflexivity|].
  now rewrite upper_char_idem, IH.
Qed.

Lemma lstrip_upper s : lstrip (upper s) = upper (lstrip s).
Proof.
  induction s as [|c r IH]; simpl; [reflexivity|].
  rewrite is_space_upper. now destruct (is_space c).
Qed.

Lemma rstrip_upper s : rstrip (upper s) = upper (rstrip s).
Proof.
  induction s as [|c r IH]; [reflexivity|].
  cbn [upper]. rewrite !rstrip_cons, IH.
  destruct (rstrip r) as [|c' r']; cbn [upper].
  - rewrite is_space_upper. now destruct (is_space c).
  - reflexivity.
Qed.

Lemma strip_upper s : strip (upper s) = upper (strip s).
Proof. unfold strip. now rewrite lstrip_upper, rstrip_upper. Qed.

Lemma clean_upper s : clean (upper s) = clean s.
Proof. unfold clean. now rewrite strip_upper, upper_idem. Qed.

Lemma lstrip_spaces_app a t :
  all_chars is_space a = true -> lstrip (a ++ t) = lstrip t.
Proof.
  induction a as [|c r IH]; intros H; [reflexivity|].
  simpl in *. apply andb_prop in H as [Hc Hr]. rewrite Hc. now apply IH.
Qed.

Lemma rstrip_spaces b : all_chars is_space b = true -> rstrip b = EmptyString.
Proof.
  induction b as [|c r IH]; intros H; [reflexivity|].
  simpl in H. apply andb_prop in H as [Hc Hr].
  now rewrite rstrip_cons, (IH Hr), Hc.
Qed.

Lemma rstrip_app_spaces t b :
  all_chars is_space b = true -> rstrip (t ++ b) = rstrip t.
Proof.
  intros H. induction t as [|c r IH].
  - now apply rstrip_spaces.
  - cbn [append]. now rewrite !rstrip_cons, IH.
Qed.

Lemma strip_padded a s b :
  all_chars is_space a = true -> all_chars is_space b = true ->
  strip (a ++ s ++ b) = strip s.
Proof.
  intros Ha Hb. unfold strip. rewrite lstrip_spaces_app by assumption.
  induction s as [|c r IH].
  - cbn [append]. rewrite <- (rstrip_app_spaces (lstrip b) EmptyString)
      by reflexivity.
    assert (E : lstrip b = EmptyString).
    { clear -Hb. induction b as [|c r IH]; [reflexivity|].
      simpl in *. apply andb_prop in Hb as [Hc Hr]. rewrite Hc. now apply IH. }
    now rewrite E.
  - cbn [append lstrip]. destruct (is_space c); [exact IH|].
    change (String c (r ++ b)) with (String c r ++ b)%string.
    now apply rstrip_app_spaces.
Qed.

(** X2: cleaning does not see letter case nor white space around the
    symbol: an entry, its upper-case form and the entry padded with white
    space clean to the same symbol, so lists that differ only in this way
    give the same output. *)
Theorem cleaning_ignores_case_and_padding :
  (forall s, clean (upper s) = clean s)
  /\ (forall a s b,
      all_chars is_space a = true -> all_chars is_space b = true ->
      clean (a ++ s ++ b) = clean s)
  /\ (forall a b d d' l,
      all_chars is_space a = true -> all_chars is_space b = true ->
      dict_get d "stocks" = Some (PList (map PStr l)) ->
      dict_get d' "stocks"
      = Some (PList (map PStr
                       (map (fun s => (a ++ upper s ++ b)%string) l))) ->
      extract_stocks_from_alert (PDict d)
      = extract_stocks_from_alert (PDict d')).
Proof.
  assert (Hpad : forall a s b,
             all_chars is_space a = true -> all_chars is_space b = true ->
             clean (a ++ s ++ b) = clean s).
  { intros a s b Ha Hb. unfold clean. now rewrite strip_padded. }
  split; [exact clean_upper|]. split; [exact Hpad|].
  intros a b d d' l Ha Hb H H'.
  rewrite (extract_of_list _ _ H), (extract_of_list _ _ H').
  rewrite !strings_of_strings, map_map. f_equal. apply map_ext.
  intros s. now rewrite Hpad, clean_upper.
Qed.

Lemma cleaning_ignores_case_and_padding_witness :
  clean "  nse:tcs " = clean "nse:tcs"
  /\ extract_stocks_from_alert
       (PDict [("stocks", PList [PStr "tcs"; PStr "Infy.ns"])])
     = extract_stocks_from_alert
         (PDict [("stocks", PList [PStr " TCS "; PStr " INFY.NS "])]).
Proof.
  split.
  - apply (proj1 (proj2 cleaning_ignores_case_and_padding)
             "  " "nse:tcs" " "); reflexivity.
  - apply (proj2 (proj2 cleaning_ignores_case_and_padding) " " " " _ _
             ["tcs"; "Infy.ns"]); reflexivity.
Defined.

(** ** Trigger prices that do not parse *)

Lemma all_or_none_fails {A B : Type} (f : A -> option B) l :
  (exists a, In a l /\ f a = None) -> all_or_none f l = None.
Proof.
  induction l as [|x l IH]; intros (a & Hin & Ha); [contradiction|].
  simpl. destruct Hin as [-> | Hin].
  - now rewrite Ha.
  - destruct (f x); [|reflexivity].
    rewrite IH; [reflexivity | now exists a].
Qed.

Lemma all_or_none_values {A B : Type} (f : A -> option B) l r :
  all_or_none f l = Some r -> map Some r = map f l.
Proof.
  revert r. induction l as [|x l IH]; intros r; simpl.
  - now intros [= <-].
  - destruct (f x) as [b|]; [|discriminate].
    destruct (all_or_none f l) as [r'|]; [|discriminate].
    intros [= <-]. simpl. now rewrite (IH r' eq_refl).
Qed.

Lemma all_or_none_succeeds {A B : Type} (f : A -> option B) l :
  (forall a, In a l -> f a <> None) -> exists r, all_or_none f l = Some r.
Proof.
  induction l as [|x l IH]; intros H; simpl; [now exists []|].
  destruct (f x) as [b|] eqn:E; [|exfalso; apply (H x); auto; now left].
  destruct IH as (r & ->); [intros a Ha; apply H; now right|].
  now exists (b :: r).
Qed.

Lemma enumerate_entries_in alert_data current_time iteration prices :
  forall stocks i0 entry,
    In entry
      (enumerate_entries alert_data current_time iteration prices i0 stocks) ->
    exists i stock,
      entry = stock_entry alert_data current_time iteration prices i stock.
Proof.
  induction stocks as [|s r IH]; intros i0 entry H; [contradiction|].
  destruct H as [<- | H]; [now exists i0, s | now apply (IH (S i0))].
Qed.

(** X3: the prices are taken all or not at all.  If one piece of the
    comma-separated [trigger_prices] is not a float literal (an empty piece
    after a trailing comma, say), or the field is missing or not a string,
    no price is kept and every row carries the integer 0; if every piece
    parses, there is one price per piece, in order. *)
Theorem trigger_prices_all_or_nothing :
  (forall d s,
      dict_get d "trigger_prices" = Some (PStr s) ->
      (exists p, In p (split "," s) /\ py_float (strip p) = None) ->
      parse_trigger_prices d = [])
  /\ (forall d v,
      dict_get d "trigger_prices" = v ->
      (forall s, v <> Some (PStr s)) ->
      parse_trigger_prices d = [])
  /\ (forall d s,
      dict_get d "trigger_prices" = Some (PStr s) ->
      (forall p, In p (split "," s) -> py_float (strip p) <> None) ->
      map Some (parse_trigger_prices d)
      = map (fun p => py_float (strip p)) (split "," s))
  /\ (forall d current_time iteration stocks entry,
      parse_trigger_prices d = [] ->
      In entry (build_stock_data d current_time iteration stocks) ->
      dict_get entry "Trigger_Price" = Some (PInt 0)).
Proof.
  split; [|split; [|split]].
  - intros d s H Hp. unfold parse_trigger_prices. rewrite H.
    now rewrite (all_or_none_fails _ _ Hp).
  - intros d v H Hv. unfold parse_trigger_prices. rewrite H.
    destruct v as [v|]; [|reflexivity].
    destruct v; try reflexivity. now destruct (Hv s).
  - intros d s H Hp. unfold parse_trigger_prices. rewrite H.
    destruct (all_or_none_succeeds _ _ Hp) as (r & E). rewrite E.
    now apply all_or_none_values.
  - intros d current_time iteration stocks entry Hp Hin.
    unfold build_stock_data in Hin. rewrite Hp in Hin.
    apply enumerate_entries_in in Hin as (i & stock & ->).
    unfold stock_entry. now destruct (i - 1)%nat.
Qed.

Lemma trigger_prices_all_or_nothing_witness :
  parse_trigger_prices [("trigger_prices", PStr "3500,1500,")] = []
  /\ parse_trigger_prices [("trigger_prices", PInt 3500)] = []
  /\ map Some (parse_trigger_prices [("trigger_prices", PStr " 1e2 ,.5")])
     = [Some (S754_finite false 7036874417766400 (-46));
        Some (S754_finite false 4503599627370496 (-53))]
  /\ dict_get
       (stock_entry [("trigger_prices", PStr "3500,x")] sample_clock 1
          (parse_trigger_prices [("trigger_prices", PStr "3500,x")]) 1 "TCS")
       "Trigger_Price" = Some (PInt 0).
Proof.
  split; [|split; [|split]].
  - apply (proj1 trigger_prices_all_or_nothing _ "3500,1500,");
      [reflexivity|].
    exists EmptyString. split; [vm_compute; tauto | reflexivity].
  - apply (proj1 (proj2 trigger_prices_all_or_nothing) _
             (Some (PInt 3500))); [reflexivity | discriminate].
  - rewrite (proj1 (proj2 (proj2 trigger_prices_all_or_nothing)) _
               " 1e2 ,.5"); [reflexivity | reflexivity |].
    intros p Hp. vm_compute in Hp.
    destruct Hp as [<- | [<- | []]]; vm_compute; discriminate.
  - apply (proj2 (proj2 (proj2 trigger_prices_all_or_nothing))
             [("trigger_prices", PStr "3500,x")] sample_clock 1%Z ["TCS"]);
      [reflexivity | now left].
Defined.

(** ** The shape of an iteration sheet *)

Lemma stock_entry_keys alert_data current_time iteration prices i stock :
  dict_keys (stock_entry alert_data current_time iteration prices i stock)
  = columns.
Proof. reflexivity. Qed.

Lemma build_stock_data_keys alert_data current_time iteration stocks :
  Forall (fun entry => dict_keys entry = columns)
    (build_stock_data alert_data current_time iteration stocks).
Proof.
  apply Forall_forall. intros entry H.
  apply enumerate_entries_in in H as (i & stock & ->).
  apply stock_entry_keys.
Qed.

(** X4: for a non-empty list of symbols the sheet written is the header
    row of the ten column names followed by one row of ten cells per
    symbol, in the order of the symbols; the row of the symbol at position
    i + 1 begins with that position and the symbol and carries the
    iteration number in its eighth cell. *)
Theorem iteration_sheet_shape :
  forall alert_data current_time iteration stocks,
    stocks <> [] ->
    let data := build_stock_data alert_data current_time iteration stocks in
    nth_error (sheet_rows data) 0 = Some (map PStr columns)
    /\ List.length (sheet_rows data) = S (List.length stocks)
    /\ Forall (fun row => List.length row = 10%nat) (sheet_rows data)
    /\ (forall i stock,
          nth_error stocks i = Some stock ->
          exists row,
            nth_error (sheet_rows data) (S i) = Some row
            /\ nth_error row 0 = Some (PInt (Z.of_nat (S i)))
            /\ nth_error row 1 = Some (PStr stock)
            /\ nth_error row 7 = Some (PInt iteration)).
Proof.
  intros alert_data current_time iteration stocks Hne data.
  pose proof (build_stock_data_keys alert_data current_time iteration stocks)
    as Hk. fold data in Hk.
  assert (Hlen : List.length data = List.length stocks)
    by apply enumerate_entries_length.
  destruct data as [|first rest] eqn:E.
  { destruct stocks; [congruence | discriminate]. }
  set (floats := existsb is_float_price (first :: rest)).
  assert (Hrows : sheet_rows (first :: rest)
                  = map PStr columns
                    :: map (frame_row floats) (first :: rest)).
  { unfold sheet_rows. inversion Hk as [|x l Hx _]; subst. now rewrite Hx. }
  rewrite Hrows. split; [reflexivity|].
  split; [cbn [List.length]; now rewrite length_map, Hlen|].
  split.
  - constructor; [reflexivity|]. apply Forall_forall. intros row Hrow.
    apply in_map_iff in Hrow as (entry & <- & Hin).
    rewrite Forall_forall in Hk. specialize (Hk entry Hin).
    unfold frame_row, dict_keys in *.
    rewrite length_map, <- (length_map fst), Hk. reflexivity.
  - intros i stock Hi. cbn [nth_error]. rewrite <- E. subst data.
    unfold build_stock_data.
    eexists. split.
    + apply map_nth_error.
      apply (enumerate_entries_nth _ _ _ _ stocks 1 i stock Hi).
    + destruct floats; repeat split; reflexivity.
Qed.

Lemma iteration_sheet_shape_witness :
  let data := build_stock_data [] sample_clock 3 ["TCS"; "INFY"] in
  nth_error (sheet_rows data) 0 = Some (map PStr columns)
  /\ List.length (sheet_rows data) = 3%nat
  /\ Forall (fun row => List.length row = 10%nat) (sheet_rows data)
  /\ (forall i stock,
        nth_error ["TCS"; "INFY"] i = Some stock ->
        exists row,
          nth_error (sheet_rows data) (S i) = Some row
          /\ nth_error row 0 = Some (PInt (Z.of_nat (S i)))
          /\ nth_error row 1 = Some (PStr stock)
          /\ nth_error row 7 = Some (PInt 3)).
Proof.
  apply (iteration_sheet_shape [] sample_clock 3%Z ["TCS"; "INFY"]).
  discriminate.
Defined.

(** ** The number type of the price cells *)

Lemma no_float_price_without_prices alert_data current_time iteration stocks :
  forall i0,
    existsb is_float_price
      (enumerate_entries alert_data current_time iteration [] i0 stocks)
    = false.
Proof.
  induction stocks as [|s r IH]; intros i0; [reflexivity|].
  cbn [enumerate_entries existsb]. rewrite IH.
  unfold is_float_price, stock_entry. cbn [dict_get String.eqb Ascii.eqb].
  cbn. now destruct (i0 - 1)%nat.
Qed.

(** X19: the price cells of a sheet are of one number type.  The cell of a
    symbol that has a price holds that price; the cell of a symbol without
    one holds the float 0.0 when the alert carries prices, and the integer
    0 when it carries none. *)
Theorem price_cells_share_a_number_type :
  forall alert_data current_time iteration stocks i stock,
    nth_error stocks i = Some stock ->
    let prices := parse_trigger_prices alert_data in
    let data := build_stock_data alert_data current_time iteration stocks in
    exists row,
      nth_error (sheet_rows data) (S i) = Some row
      /\ nth_error row 2
         = Some match nth_error prices i with
                | Some p => PFloat p
                | None => match prices with
                          | [] => PInt 0
                          | _ :: _ => PFloat (S754_zero false)
                          end
                end.
Proof.
  intros alert_data current_time iteration stocks i stock Hi prices data.
  destruct stocks as [|s0 rest]; [destruct i; discriminate|].
  pose proof (enumerate_entries_nth alert_data current_time iteration prices
                (s0 :: rest) 1 i stock Hi) as Hn.
  fold prices in data. unfold build_stock_data in data. fold prices in data.
  assert (Hrows : sheet_rows data
                  = map PStr columns
                    :: map (frame_row (existsb is_float_price data)) data)
    by reflexivity.
  rewrite Hrows. cbn [nth_error].
  eexists. split; [apply map_nth_error; exact Hn|].
  replace (1 + i - 1)%nat with i by lia.
  destruct prices as [|p ps] eqn:Ep.
  - unfold data. rewrite no_float_price_without_prices.
    now destruct i.
  - assert (Hf : existsb is_float_price data = true) by reflexivity.
    rewrite Hf. unfold stock_entry, frame_row. cbn [map nth_error fst snd].
    replace (1 + i - 1)%nat with i by lia.
    now destruct (nth_error (p :: ps) i).
Qed.

Lemma price_cells_share_a_number_type_witness :
  exists row,
    nth_error
      (sheet_rows
         (build_stock_data [("trigger_prices", PStr "3500")] sample_clock 4
            ["TCS"; "INFY"])) 2
    = Some row
    /\ nth_error row 2 = Some (PFloat (S754_zero false)).
Proof.
  apply (price_cells_share_a_number_type [("trigger_prices", PStr "3500")]
           sample_clock 4%Z ["TCS"; "INFY"] 1 "INFY").
  reflexivity.
Defined.

(** ** The answers of the webhook *)

(** The three ways a request can end. *)
Lemma webhook_outcome env req w :
  let n := current_iteration (handler w) in
  let out := chartink_webhook env req w in
  (snd (fst out) = 200%Z
   /\ (exists stocks, fst (fst out) = success_result stocks n)
   /\ current_iteration (handler (snd out)) = (n + 1)%Z
   /\ exists j, get_json req = Returns j)
  \/ (snd (fst out) = 400%Z
      /\ (exists e, fst (fst out) = error_result e)
      /\ current_iteration (handler (snd out)) = n
      /\ exists j, get_json req = Returns j)
  \/ (snd (fst out) = 500%Z
      /\ (exists e, get_json req = Raises e
                    /\ fst (fst out) = error_result e)
      /\ snd out = w).
Proof.
  intros n out. subst out.
  destruct (webhook_cases env req w)
    as [(e & Hj & E) | [(j & Hj & E) | (j & a & Hj & _ & _ & E)]];
    rewrite E; cbn [fst snd].
  - right. right. repeat split; eauto.
  - right. left. repeat split; eauto.
    now exists "No data received".
  - destruct (process_counter env a w)
      as [(Hr & Hi & _) | ((e & He) & Hi & _)].
    + left. rewrite Hr, is_success_success. repeat split; eauto.
    + right. left. rewrite He, is_success_error. repeat split; eauto.
Qed.

(** X5: the status code is 200, 400 or 500.  It is 200 exactly when the
    result says success, and 500 exactly when reading the JSON body raised,
    in which case nothing else was done; the body always carries a status,
    success or error, and a message. *)
Theorem webhook_status_codes :
  forall env req w,
    let out := chartink_webhook env req w in
    let result := fst (fst out) in
    let code := snd (fst out) in
    (code = 200%Z \/ code = 400%Z \/ code = 500%Z)
    /\ (code = 200%Z <-> is_success result = true)
    /\ (code = 500%Z <-> exists e, get_json req = Raises e)
    /\ (code = 500%Z -> snd out = w)
    /\ exists status message rest,
         result = PDict (("status", PStr status)
                         :: ("message", PStr message) :: rest)
         /\ (status = "success" \/ status = "error").
Proof.
  intros env req w out result code. subst result code.
  destruct (webhook_outcome env req w)
    as [(Hc & (stocks & Hr) & _ & (j & Hj))
       | [(Hc & (e & Hr) & _ & (j & Hj))
         | (Hc & (e & Hj & Hr) & Hw)]];
    fold out in Hc, Hr; try fold out in Hw; rewrite Hc, Hr.
  - split; [auto|]. split; [now rewrite is_success_success|].
    split; [split; [discriminate | intros (e & He); congruence]|].
    split; [discriminate|].
    unfold success_result. do 3 eexists. split; [reflexivity | now left].
  - split; [auto|]. split; [rewrite is_success_error; split; discriminate|].
    split; [split; [discriminate | intros (e' & He); congruence]|].
    split; [discriminate|].
    unfold error_result. do 3 eexists. split; [reflexivity | now right].
  - split; [auto|]. split; [rewrite is_success_error; split; discriminate|].
    split; [split; [now exists e | reflexivity]|].
    split; [now intros _|].
    unfold error_result. do 3 eexists. split; [reflexivity | now right].
Qed.

Lemma webhook_status_codes_witness :
  snd (chartink_webhook sample_env
         {| get_json := Raises "400 Bad Request"; form := [] |} sample_world)
  = sample_world.
Proof.
  apply (proj1 (proj2 (proj2 (proj2
           (webhook_status_codes sample_env
              {| get_json := Raises "400 Bad Request"; form := [] |}
              sample_world))))).
  reflexivity.
Defined.

(** ** A workbook that cannot be loaded, and a first write that fails *)

Lemma add_stocks_unreadable env stocks alert_data w e :
  disk w = Unreadable e ->
  add_stocks_to_excel env stocks alert_data w = (error_result e, w).
Proof.
  intros H. unfold add_stocks_to_excel, open_workbook. now rewrite H.
Qed.

(** X6: while the file at the workbook's path cannot be loaded, no alert
    is accepted and nothing changes: an alert with symbols is answered 400
    with the loader's message, the file is left as it is (never replaced by
    a fresh workbook) and the counter stays. *)
Theorem unreadable_workbook_blocks_alerts :
  forall env req w e,
    disk w = Unreadable e ->
    let out := chartink_webhook env req w in
    snd out = w
    /\ snd (fst out) <> 200%Z
    /\ (forall j alert_data,
          get_json req = Returns j ->
          alert_data = (if truthy j then j else form_to_dict (form req)) ->
          extract_stocks_from_alert alert_data <> [] ->
          fst out = (error_result e, 400%Z)).
Proof.
  intros env req w e H out. subst out.
  assert (Hp : forall a,
             (extract_stocks_from_alert a = []
              /\ process_chartink_alert env a w = (no_stocks_result, w))
             \/ (extract_stocks_from_alert a <> []
                 /\ process_chartink_alert env a w = (error_result e, w))).
  { intros a.
    destruct (process_cases env a w) as [[He E] | (d & -> & Hne & E)].
    - now left.
    - right. split; [assumption|]. rewrite E.
      now apply add_stocks_unreadable. }
  split; [|split].
  - destruct (webhook_cases env req w)
      as [(e' & _ & E) | [(j & _ & E) | (j & a & _ & _ & _ & E)]];
      rewrite E; try reflexivity.
    destruct (Hp a) as [[_ E'] | [_ E']]; now rewrite E'.
  - destruct (webhook_cases env req w)
      as [(e' & _ & E) | [(j & _ & E) | (j & a & _ & _ & _ & E)]];
      rewrite E; cbn [fst snd]; try discriminate.
    destruct (Hp a) as [[_ E'] | [_ E']]; rewrite E'; discriminate.
  - intros j a Hj Ha Hne. unfold chartink_webhook. rewrite Hj. cbv zeta.
    rewrite <- Ha, (extract_nonempty_truthy _ Hne). cbn [negb].
    destruct (Hp a) as [[He _] | [_ E']]; [contradiction|].
    now rewrite E'.
Qed.

Lemma unreadable_workbook_blocks_alerts_witness :
  chartink_webhook sample_env sample_request
    (set_disk (Unreadable "File is not a zip file") sample_world)
  = (error_result "File is not a zip file", 400%Z,
     set_disk (Unreadable "File is not a zip file") sample_world).
Proof.
  pose proof (unreadable_workbook_blocks_alerts sample_env sample_request
                (set_disk (Unreadable "File is not a zip file") sample_world)
                "File is not a zip file" eq_refl) as (Hw & _ & Hr).
  rewrite (surjective_pairing (chartink_webhook _ _ _)).
  rewrite Hw, (Hr sample_alert sample_alert eq_refl eq_refl);
    [reflexivity | discriminate].
Defined.

(** X7: when there is no workbook yet, the file with the two baseline
    sheets is saved before the sheet of the alert is written.  If the
    sheet cannot be written the alert fails with that error but the
    baseline workbook stays on disk; if the baseline save itself raises,
    the alert fails with that error.  The counter stays in both cases. *)
Theorem first_write_failure_leaves_baseline :
  forall env alert_data w e,
    disk w = Absent ->
    extract_stocks_from_alert alert_data <> [] ->
    (baseline_save env = SaveOk ->
     sheet_fault env = Some e ->
     process_chartink_alert env alert_data w
     = (error_result e, set_disk (Stored baseline_workbook) w))
    /\ (forall remains,
          baseline_save env = SaveFails e remains ->
          process_chartink_alert env alert_data w
          = (error_result e, set_disk remains w))
    /\ sheetnames baseline_workbook = ["Master_List"; "TradingView_Export"]
    /\ get_next_iteration_number (Stored baseline_workbook) = 1%Z.
Proof.
  intros env alert_data w e Hd Hne.
  destruct (process_cases env alert_data w) as [[He _] | (d & -> & _ & E)];
    [contradiction|].
  rewrite E. unfold add_stocks_to_excel, open_workbook. rewrite Hd.
  cbn [path_exists negb].
  split; [|split; [|split; reflexivity]].
  - intros Hs Hf. now rewrite Hs, Hf.
  - intros remains Hs. now rewrite Hs.
Qed.

Lemma first_write_failure_leaves_baseline_witness :
  process_chartink_alert
    {| now := sample_clock; baseline_save := SaveOk;
       sheet_fault := Some "Cannot convert ['a'] to Excel";
       final_save := SaveOk; drive := folder_failing_api |}
    (PDict [("stocks", PStr "TCS"); ("scan_name", PList [PStr "a"])])
    sample_world
  = (error_result "Cannot convert ['a'] to Excel",
     set_disk (Stored baseline_workbook) sample_world).
Proof.
  apply (proj1 (first_write_failure_leaves_baseline
                  {| now := sample_clock; baseline_save := SaveOk;
                     sheet_fault := Some "Cannot convert ['a'] to Excel";
                     final_save := SaveOk; drive := folder_failing_api |}
                  (PDict [("stocks", PStr "TCS");
                          ("scan_name", PList [PStr "a"])])
                  sample_world "Cannot convert ['a'] to Excel"
                  eq_refl ltac:(discriminate)));
    reflexivity.
Defined.

(** ** A run of requests *)

Lemma serve_cons env req rest w :
  serve ((env, req) :: rest) w
  = ((fst (chartink_webhook env req w))
       :: fst (serve rest (snd (chartink_webhook env req w))),
     snd (serve rest (snd (chartink_webhook env req w)))).
Proof.
  cbn [serve]. destruct (chartink_webhook env req w) as [[result code] w1].
  cbn [fst snd]. now destruct (serve rest w1).
Qed.

Lemma shifted_range c m :
  map (fun k => (c + 1 + Z.of_nat k)%Z) (seq 0 m)
  = map (fun k => (c + Z.of_nat k)%Z) (seq 1 m).
Proof.
  rewrite <- seq_shift, map_map. apply map_ext. intros k. lia.
Qed.

Lemma count_ok_cons r rs :
  count_ok (r :: rs)
  = if (snd r =? 200)%Z then S (count_ok rs) else count_ok rs.
Proof.
  unfold count_ok. simpl. now destruct (snd r =? 200)%Z.
Qed.

Lemma reported_iterations_cons r rs :
  reported_iterations (r :: rs)
  = ((if (snd r =? 200)%Z then
        match fst r with
        | PDict d => match dict_get d "iteration" with
                     | Some (PInt n) => [n]
                     | _ => []
                     end
        | _ => []
        end
      else []) ++ reported_iterations rs)%list.
Proof. reflexivity. Qed.

Lemma serve_counts requests :
  forall w,
    let out := serve requests w in
    let c := current_iteration (handler w) in
    List.length (fst out) = List.length requests
    /\ current_iteration (handler (snd out))
       = (c + Z.of_nat (count_ok (fst out)))%Z
    /\ reported_iterations (fst out)
       = map (fun k => (c + Z.of_nat k)%Z) (seq 0 (count_ok (fst out))).
Proof.
  induction requests as [|[env req] rest IH]; intros w out c; subst out c.
  - cbn. repeat split. lia.
  - rewrite serve_cons. cbn [fst snd].
    destruct (IH (snd (chartink_webhook env req w))) as (Hl & Hc & Hr).
    rewrite count_ok_cons, reported_iterations_cons. cbn [List.length].
    destruct (webhook_outcome env req w)
      as [(Hcode & (stocks & Hres) & Hi & _)
         | [(Hcode & _ & Hi & _) | (Hcode & _ & Hw)]].
    + rewrite Hcode, Hres. change (200 =? 200)%Z with true. cbv iota.
      rewrite Hi in Hc, Hr.
      split; [now rewrite Hl|]. split; [rewrite Hc; lia|].
      change (match success_result stocks (current_iteration (handler w)) with
              | PDict d => match dict_get d "iteration" with
                           | Some (PInt n) => [n]
                           | _ => []
                           end
              | _ => []
              end) with [current_iteration (handler w)].
      rewrite Hr, shifted_range. cbn [seq map app]. f_equal. f_equal. lia.
    + rewrite Hcode. change (400 =? 200)%Z with false. cbv iota.
      rewrite Hi in Hc, Hr.
      split; [now rewrite Hl|]. split; [exact Hc | exact Hr].
    + rewrite Hcode. change (500 =? 200)%Z with false. cbv iota.
      rewrite Hw in Hl, Hc, Hr |- *.
      split; [now rewrite Hl|]. split; [exact Hc | exact Hr].
Qed.

(** X8: over any run of requests the counter ends at its initial value
    plus the number of 200 answers, and the successful answers report
    consecutive iteration numbers from the initial value on, without gap or
    repetition, whatever failed requests come in between. *)
Theorem successes_get_consecutive_iterations :
  forall requests w,
    let out := serve requests w in
    let c := current_iteration (handler w) in
    List.length (fst out) = List.length requests
    /\ current_iteration (handler (snd out))
       = (c + Z.of_nat (count_ok (fst out)))%Z
    /\ reported_iterations (fst out)
       = map (fun k => (c + Z.of_nat k)%Z) (seq 0 (count_ok (fst out))).
Proof. exact serve_counts. Qed.

(** ** The counter and the file *)

(** The number a restart reads is above every number in the file. *)
Lemma scan_above_found f m :
  found f m -> (m < get_next_iteration_number f)%Z.
Proof.
  intros H. destruct (scan_with_numbers f (ex_intro _ m H))
    as (n & _ & Hmax & ->).
  specialize (Hmax m H). lia.
Qed.

(** The sheet of the number a restart reads is not in the file. *)
Lemma next_sheet_is_new wb :
  ~ In (sheet_name_of (get_next_iteration_number (Stored wb)))
       (sheetnames wb).
Proof.
  intros H.
  assert (Hf : found (Stored wb) (get_next_iteration_number (Stored wb))).
  { eexists. split; [exact H|].
    split; [apply sheet_name_starts | apply sheet_number_of_name]. }
  apply scan_above_found in Hf. lia.
Qed.

Lemma lower_app a b : lower (a ++ b) = (lower a ++ lower b)%string.
Proof. induction a as [|c a IH]; simpl; [reflexivity | now rewrite IH]. Qed.

Lemma lower_char_of_other c : is_letter c = false -> lower_char c = c.
Proof.
  destruct c as [[] [] [] [] [] [] [] []]; intros H; try reflexivity;
    discriminate.
Qed.

Lemma lower_char_to_other x y :
  lower_char x = y -> is_lower_char y = false -> x = y.
Proof.
  intros <-.
  destruct x as [[] [] [] [] [] [] [] []]; intros H; try reflexivity;
    discriminate.
Qed.

(** A text without letters is the only one with its lower-case form. *)
Lemma lower_same_without_letters r s :
  all_chars (fun c => negb (is_letter c)) s = true ->
  lower r = lower s -> r = s.
Proof.
  revert r. induction s as [|y s IH]; intros r H E.
  - destruct r; [reflexivity | discriminate].
  - destruct r as [|x r]; [discriminate|].
    simpl in H, E. apply andb_prop in H as [Hy Hs].
    apply negb_true_iff in Hy. injection E as Ec Er.
    rewrite (lower_char_of_other y Hy) in Ec.
    rewrite (IH r Hs Er). f_equal.
    apply (lower_char_to_other x y Ec).
    unfold is_letter in Hy. now apply orb_false_elim in Hy as [Hy _].
Qed.

Lemma uint_text_without_letters d :
  all_chars (fun c => negb (is_letter c)) (NilEmpty.string_of_uint d) = true.
Proof. induction d; simpl; auto. Qed.

Lemma py_str_int_without_letters n :
  all_chars (fun c => negb (is_letter c)) (py_str_int n) = true.
Proof.
  unfold py_str_int. destruct n as [|p|p]; simpl; [reflexivity| |].
  - destruct (Pos.to_uint p); try apply uint_text_without_letters. reflexivity.
  - destruct (Pos.to_uint p); try apply uint_text_without_letters. reflexivity.
Qed.

Lemma prefix_split p s :
  prefix p s = true -> exists r, s = (p ++ r)%string.
Proof.
  revert s. induction p as [|c p IH]; intros s H; [now exists s|].
  destruct s as [|b s]; [discriminate|]. simpl in H.
  destruct (ascii_dec c b) as [->|]; [|discriminate].
  destruct (IH s H) as (r & ->). now exists r.
Qed.

(** A title that is the name of an iteration sheet up to letter case, and
    starts as the writer spells it, is that name. *)
Lemma same_title_as_sheet_name t n :
  startswith "Iteration_" t = true ->
  same_title t (sheet_name_of n) = true -> t = sheet_name_of n.
Proof.
  intros Hp E. apply prefix_split in Hp as (r & ->).
  unfold same_title, sheet_name_of in *. apply String.eqb_eq in E.
  rewrite !lower_app in E. cbn in E.
  injection E as E. f_equal.
  now apply lower_same_without_letters; [apply py_str_int_without_letters|].
Qed.

(** In a file whose iteration sheets are spelled as the writer spells them,
    no sheet bears the title of the number a restart reads, in any letter
    case. *)
Lemma next_title_free wb :
  iteration_titles_exact (Stored wb) ->
  title_free (sheet_name_of (get_next_iteration_number (Stored wb))) wb.
Proof.
  intros J t Hin.
  destruct (same_title t (sheet_name_of (get_next_iteration_number (Stored wb))))
    eqn:E; [|reflexivity].
  exfalso. apply (next_sheet_is_new wb).
  rewrite <- (same_title_as_sheet_name t _); [exact Hin | | exact E].
  apply (J t Hin). unfold same_title in E. apply String.eqb_eq in E.
  unfold startswith. rewrite E. unfold sheet_name_of. rewrite lower_app.
  apply (prefix_app_self "iteration_").
Qed.

(** Writing the sheet of the number a restart reads, under its title, moves
    that number up by one. *)
Lemma scan_after_write data wb :
  let c := get_next_iteration_number (Stored wb) in
  title_free (sheet_name_of c) wb ->
  get_next_iteration_number
    (Stored (write_iteration_sheet (sheet_name_of c) data wb))
  = (c + 1)%Z.
Proof.
  intros c Hfree. rewrite create_when_new by assumption.
  set (wb' := wb ++ [{| title := sheet_name_of c; rows := sheet_rows data |}]).
  assert (Hc : found (Stored wb') c).
  { exists (sheet_name_of c). split.
    - unfold wb'. rewrite sheetnames_app. apply in_or_app. right. now left.
    - split; [apply sheet_name_starts | apply sheet_number_of_name]. }
  destruct (scan_with_numbers (Stored wb') (ex_intro _ c Hc))
    as (n & Hn & Hmax & ->).
  f_equal. apply Z.le_antisymm; [|now apply Hmax].
  destruct Hn as (name & Hin & Hs & Hnum).
  unfold wb' in Hin. rewrite sheetnames_app in Hin.
  apply in_app_or in Hin as [Hin | [<- | []]].
  - assert (Hf : found (Stored wb) n) by (now exists name).
    apply scan_above_found in Hf. fold c in Hf. lia.
  - cbn [title] in Hnum. rewrite sheet_number_of_name in Hnum.
    injection Hnum as <-. lia.
Qed.

(** The writer when no save fails. *)
Lemma add_stocks_saves_ok env stocks alert_data w :
  saves_ok env ->
  let n := current_iteration (handler w) in
  let out := add_stocks_to_excel env stocks alert_data w in
  (exists wb,
      (disk w = Stored wb \/ (disk w = Absent /\ wb = baseline_workbook))
      /\ fst out = success_result stocks n
      /\ disk (snd out)
         = Stored (write_iteration_sheet (sheet_name_of n)
                     (build_stock_data alert_data (now env) n stocks) wb)
      /\ current_iteration (handler (snd out)) = (n + 1)%Z)
  \/ ((exists e, fst out = error_result e)
      /\ current_iteration (handler (snd out)) = n
      /\ (disk (snd out) = disk w
          \/ (disk w = Absent /\ disk (snd out) = Stored baseline_workbook))).
Proof.
  intros [Hb Hf] n out. subst out.
  destruct (add_stocks_to_excel_cases env stocks alert_data w)
    as [(wb & w1 & Ho & _ & _ & Hr & Hd & Hi) | (e & Hr & Hi & Hc)].
  - left. exists wb. fold n in Hr, Hd, Hi. repeat split; try assumption.
    exact (open_workbook_returns _ _ _ _ Ho).
  - right. split; [now exists e|]. split; [assumption|].
    unfold add_stocks_to_excel, open_workbook. rewrite Hb, Hf.
    destruct (disk w) as [|e'|wb0] eqn:E; cbn.
    + destruct (sheet_fault env).
      * right. split; reflexivity.
      * exfalso. destruct Hc as [(w1 & Ho) | [Hs | (r & Hs)]];
          try congruence.
        unfold open_workbook in Ho. rewrite E, Hb in Ho. discriminate.
    + left. exact E.
    + destruct (sheet_fault env); [left; exact E|].
      exfalso. destruct Hc as [(w1 & Ho) | [Hs | (r & Hs)]];
        try congruence.
      unfold open_workbook in Ho. rewrite E in Ho. discriminate.
Qed.

Lemma baseline_titles_exact : iteration_titles_exact (Stored baseline_workbook).
Proof. intros t [<- | [<- | []]]; discriminate. Qed.

Lemma written_titles_exact n data wb :
  iteration_titles_exact (Stored wb) ->
  iteration_titles_exact
    (Stored (wb ++ [{| title := sheet_name_of n; rows := data |}])).
Proof.
  intros J t Hin Hp. rewrite sheetnames_app in Hin.
  apply in_app_or in Hin as [Hin | [<- | []]].
  - now apply (J t Hin).
  - apply sheet_name_starts.
Qed.

(** One request keeps the counter equal to what a restart would read, in a
    file whose iteration sheets are spelled as the writer spells them. *)
Lemma webhook_keeps_counter_matching env req w :
  saves_ok env ->
  counter_matches_file w /\ iteration_titles_exact (disk w) ->
  counter_matches_file (snd (chartink_webhook env req w))
  /\ iteration_titles_exact (disk (snd (chartink_webhook env req w))).
Proof.
  intros Hs [Hm J].
  destruct (webhook_cases env req w)
    as [(e & _ & E) | [(j & _ & E) | (j & a & _ & _ & _ & E)]];
    rewrite E; cbn [snd]; try (split; assumption).
  destruct (process_cases env a w) as [[_ E'] | (d & _ & _ & E')];
    rewrite E'; [split; assumption|].
  unfold counter_matches_file in *.
  destruct (add_stocks_saves_ok env (extract_stocks_from_alert a) d w Hs)
    as [(wb & Hw & _ & Hd & Hi) | (_ & Hi & [Hd | [Ha Hd]])];
    rewrite Hi, Hd.
  - assert (Hc : current_iteration (handler w)
                 = get_next_iteration_number (Stored wb)).
    { rewrite Hm. destruct Hw as [-> | [-> ->]]; reflexivity. }
    assert (Jwb : iteration_titles_exact (Stored wb)).
    { destruct Hw as [Hw | [_ ->]];
        [now rewrite Hw in J | apply baseline_titles_exact]. }
    rewrite Hc. pose proof (next_title_free wb Jwb) as Hfree.
    split.
    + symmetry. now apply scan_after_write.
    + rewrite create_when_new by assumption. now apply written_titles_exact.
  - now split.
  - rewrite Hm, Ha. split; [reflexivity | apply baseline_titles_exact].
Qed.

Lemma serve_keeps_counter_matching requests :
  forall w,
    Forall (fun r => saves_ok (fst r)) requests ->
    counter_matches_file w /\ iteration_titles_exact (disk w) ->
    counter_matches_file (snd (serve requests w))
    /\ iteration_titles_exact (disk (snd (serve requests w))).
Proof.
  induction requests as [|[env req] rest IH]; intros w Hs Hm;
    [exact Hm|].
  rewrite serve_cons. cbn [snd]. inversion Hs; subst.
  apply IH; [assumption|]. now apply webhook_keeps_counter_matching.
Qed.

Lemma startup_counter_matches s f : counter_matches_file (startup s f).
Proof.
  unfold counter_matches_file.
  destruct (startup_counter s f) as [-> ->]. reflexivity.
Qed.

Lemma startup_keeps_file s f : disk (startup s f) = f.
Proof. apply startup_counter. Qed.

(** X9: when the file read at start holds no sheet named like an iteration
    sheet in another letter case, and as long as no save of the workbook
    fails, the counter held in memory is at every point of a run the number
    a restart would read from the file.  Over a sheet named iteration_1, in
    lower case, it is not: the server starts at 1, the sheet of the first
    alert is stored as Iteration_11, and the counter is at 2 where a
    restart reads 12. *)
Theorem restart_reads_the_same_counter :
  (forall s f requests,
      iteration_titles_exact f ->
      Forall (fun r => saves_ok (fst r)) requests ->
      let w := snd (serve requests (startup s f)) in
      current_iteration (handler w) = get_next_iteration_number (disk w)
      /\ iteration_titles_exact (disk w))
  /\ (let w := snd (serve [(sample_env, sample_request)]
                      (startup {| credentials_exist := false;
                                  build_service := Returns tt |}
                         (Stored [sheet_titled "iteration_1"]))) in
      current_iteration (handler w) = 2%Z
      /\ get_next_iteration_number (disk w) = 12%Z).
Proof.
  split; [|cbv zeta; split; reflexivity].
  intros s f requests J Hs.
  apply (serve_keeps_counter_matching requests (startup s f) Hs).
  split; [apply startup_counter_matches | now rewrite startup_keeps_file].
Qed.

Lemma restart_reads_the_same_counter_witness :
  let w := snd (serve [(sample_env, sample_request);
                       (sample_env, sample_request)]
                  (startup {| credentials_exist := true;
                              build_service := Returns tt |}
                     (disk replay_world))) in
  current_iteration (handler w) = get_next_iteration_number (disk w)
  /\ iteration_titles_exact (disk w).
Proof.
  apply (proj1 restart_reads_the_same_counter
           {| credentials_exist := true; build_service := Returns tt |}
           (disk replay_world)
           [(sample_env, sample_request); (sample_env, sample_request)]).
  - intros t [<- | [<- | [<- | []]]] H; try reflexivity; discriminate.
  - repeat constructor.
Defined.

(** ** Sheets over a run *)

(** What an accepted request leaves in the file. *)
Lemma webhook_success_disk env req w :
  let n := current_iteration (handler w) in
  let out := chartink_webhook env req w in
  snd (fst out) = 200%Z ->
  exists j wb,
    get_json req = Returns j
    /\ (disk w = Stored wb \/ (disk w = Absent /\ wb = baseline_workbook))
    /\ fst (fst out)
       = success_result (extract_stocks_from_alert (payload req j)) n
    /\ current_iteration (handler (snd out)) = (n + 1)%Z
    /\ disk (snd out)
       = Stored (write_iteration_sheet (sheet_name_of n)
                   (build_stock_data (alert_dict (payload req j)) (now env) n
                      (extract_stocks_from_alert (payload req j))) wb).
Proof.
  intros n out Hc. subst out.
  destruct (webhook_cases env req w)
    as [(e & _ & E) | [(j & _ & E) | (j & a & Hj & -> & _ & E)]];
    rewrite E in Hc |- *; cbn [fst snd] in *; try discriminate.
  fold (payload req j) in *.
  destruct (process_counter env (payload req j) w)
    as [(Hr & Hi & _ & (wb & Hw & Hd)) | ((e & He) & _)].
  - exists j, wb. fold n in Hr, Hi, Hd. now repeat split.
  - rewrite He in Hc. discriminate.
Qed.

(** X10: in a run started from a file that holds no sheet named like an
    iteration sheet in another letter case, and in which no save fails, the
    sheet name of the next iteration is never in the workbook, so an
    accepted alert only appends: the file afterwards is the file before,
    sheet for sheet, followed by the new sheet under that name. *)
Theorem accepted_alert_appends_its_sheet :
  forall s f requests env req,
    iteration_titles_exact f ->
    Forall (fun r => saves_ok (fst r)) requests ->
    let w := snd (serve requests (startup s f)) in
    let out := chartink_webhook env req w in
    forall wb,
      disk w = Stored wb ->
      ~ In (sheet_name_of (current_iteration (handler w))) (sheetnames wb)
      /\ (snd (fst out) = 200%Z ->
          exists fresh,
            title fresh = sheet_name_of (current_iteration (handler w))
            /\ disk (snd out) = Stored (wb ++ [fresh])).
Proof.
  intros s f requests env req J Hs w out wb Hw.
  destruct (serve_keeps_counter_matching requests (startup s f) Hs)
    as [Hm Jw].
  { split; [apply startup_counter_matches | now rewrite startup_keeps_file]. }
  fold w in Hm, Jw. unfold counter_matches_file in Hm. rewrite Hw in Hm, Jw.
  pose proof (next_title_free wb Jw) as Hfree. rewrite <- Hm in Hfree.
  split; [now apply title_free_absent|]. intros Hc.
  destruct (webhook_success_disk env req w Hc)
    as (j & wb0 & _ & Hd & _ & _ & Hdisk).
  destruct Hd as [Hd | [Hd _]]; [|congruence].
  rewrite Hw in Hd. injection Hd as <-.
  fold out in Hdisk. rewrite create_when_new in Hdisk by assumption.
  eexists. split; [|exact Hdisk]. reflexivity.
Qed.

Lemma accepted_alert_appends_its_sheet_witness :
  let w := snd (serve [(sample_env, sample_request)]
                  (startup {| credentials_exist := false;
                              build_service := Returns tt |}
                     (disk replay_world))) in
  let out := chartink_webhook sample_env sample_request w in
  ~ In (sheet_name_of (current_iteration (handler w)))
       (sheetnames
          [sheet_titled "Master_List"; sheet_titled "Iteration_1";
           sheet_titled "TradingView_Export";
           iteration_sheet sample_env
             [("stocks", PStr "NSE:TCS, INFY.NS");
              ("trigger_prices", PStr "3500,1500")]
             2 ["TCS"; "INFY"]])
  /\ (snd (fst out) = 200%Z ->
      exists fresh,
        title fresh = sheet_name_of (current_iteration (handler w))
        /\ disk (snd out)
           = Stored ([sheet_titled "Master_List"; sheet_titled "Iteration_1";
                      sheet_titled "TradingView_Export";
                      iteration_sheet sample_env
                        [("stocks", PStr "NSE:TCS, INFY.NS");
                         ("trigger_prices", PStr "3500,1500")]
                        2 ["TCS"; "INFY"]] ++ [fresh])).
Proof.
  apply (accepted_alert_appends_its_sheet
           {| credentials_exist := false; build_service := Returns tt |}
           (disk replay_world) [(sample_env, sample_request)]
           sample_env sample_request).
  - intros t [<- | [<- | [<- | []]]] H; try reflexivity; discriminate.
  - repeat constructor.
  - reflexivity.
Defined.

(** X11: the number read at start depends only on which sheet names are
    in the workbook, not on their order, their number of occurrences or
    the contents of the sheets. *)
Theorem scan_depends_on_names_only :
  forall wb wb',
    (forall name, In name (sheetnames wb) <-> In name (sheetnames wb')) ->
    get_next_iteration_number (Stored wb)
    = get_next_iteration_number (Stored wb').
Proof.
  intros wb wb' H.
  assert (Hf : forall n, found (Stored wb) n <-> found (Stored wb') n).
  { intros n. cbn [found]. unfold numbered.
    split; intros (name & Hin & Hrest); exists name;
      (split; [now apply H | assumption]). }
  destruct (found_or_not (Stored wb)) as [(n & Hn) | Hno].
  - destruct (scan_with_numbers (Stored wb) (ex_intro _ n Hn))
      as (k & Hk & Hmax & ->).
    assert (Hn' : found (Stored wb') n) by now apply Hf.
    destruct (scan_with_numbers (Stored wb') (ex_intro _ n Hn'))
      as (k' & Hk' & Hmax' & ->).
    f_equal. apply Z.le_antisymm.
    + apply Hmax'. now apply Hf.
    + apply Hmax. now apply Hf.
  - rewrite (scan_without_numbers _ Hno).
    symmetry. apply scan_without_numbers.
    intros n Hn. apply (Hno n). now apply Hf.
Qed.

Lemma scan_depends_on_names_only_witness :
  get_next_iteration_number
    (Stored [sheet_titled "Iteration_2"; sheet_titled "Master_List";
             sheet_titled "Iteration_7"])
  = get_next_iteration_number
      (Stored [{| title := "Iteration_7"; rows := [] |};
               {| title := "Iteration_2"; rows := [] |};
               {| title := "Iteration_7"; rows := [[PInt 1]] |};
               {| title := "Master_List"; rows := [] |}]).
Proof.
  apply scan_depends_on_names_only.
  intros name. simpl. tauto.
Defined.

Lemma write_keeps_others name data wb s :
  In s wb -> title s <> name -> In s (write_iteration_sheet name data wb).
Proof.
  intros Hin Hne. unfold write_iteration_sheet, create_sheet.
  apply in_or_app. left.
  destruct (has_sheet name wb); [now apply remove_sheet_keeps | assumption].
Qed.

Lemma sheet_name_inj n m : sheet_name_of n = sheet_name_of m -> n = m.
Proof.
  intros H. apply (f_equal sheet_number) in H.
  rewrite !sheet_number_of_name in H. now injection H.
Qed.

(** X12: when two requests in a row are accepted, the second is answered
    with the next number and leaves every sheet the first left, other than
    one named for that next number, in the file.  The last sheet of the
    first holds its rows; when the file bore the title of the first in no
    letter case, that sheet is named for the first's number and is still
    in the file after the second. *)
Theorem next_alert_keeps_the_previous_sheet :
  forall env1 req1 env2 req2 w,
    let n := current_iteration (handler w) in
    let out1 := chartink_webhook env1 req1 w in
    let out2 := chartink_webhook env2 req2 (snd out1) in
    snd (fst out1) = 200%Z ->
    snd (fst out2) = 200%Z ->
    exists j1 kept first wb2,
      get_json req1 = Returns j1
      /\ disk (snd out1) = Stored (kept ++ [first])
      /\ rows first = alert_rows env1 (payload req1 j1) n
      /\ disk (snd out2) = Stored wb2
      /\ (exists stocks, fst (fst out2) = success_result stocks (n + 1))
      /\ (forall s, In s (kept ++ [first]) ->
                    title s <> sheet_name_of (n + 1) -> In s wb2)
      /\ ((forall wb, disk w = Stored wb -> title_free (sheet_name_of n) wb) ->
          title first = sheet_name_of n /\ In first wb2).
Proof.
  intros env1 req1 env2 req2 w n out1 out2 H1 H2.
  destruct (webhook_success_disk env1 req1 w H1)
    as (j1 & wb0 & Hj1 & Hw0 & _ & Hn & Hd1).
  fold out1 n in Hd1, Hn.
  destruct (webhook_success_disk env2 req2 (snd out1) H2)
    as (j2 & wb1 & _ & Hw1 & Hr2 & _ & Hd2).
  fold out2 in Hd2, Hr2. rewrite Hn in Hd2, Hr2.
  destruct Hw1 as [Hw1 | [Hw1 _]]; [|congruence].
  rewrite Hd1 in Hw1. injection Hw1 as Hw1.
  destruct (write_iteration_sheet_last (sheet_name_of n)
              (build_stock_data (alert_dict (payload req1 j1)) (now env1) n
                 (extract_stocks_from_alert (payload req1 j1))) wb0)
    as (kept & t & E & _).
  rewrite E in Hw1, Hd1. subst wb1.
  exists j1, kept. do 2 eexists.
  split; [exact Hj1|]. split; [exact Hd1|]. split; [reflexivity|].
  split; [exact Hd2|]. split; [eexists; exact Hr2|].
  split; [intros s Hin Hne; now apply write_keeps_others|].
  intros Hfree.
  assert (Hf0 : title_free (sheet_name_of n) wb0).
  { destruct Hw0 as [Hw0 | [_ ->]];
      [now apply Hfree | apply baseline_title_free]. }
  rewrite create_when_new in E by assumption.
  apply app_inj_tail in E as [_ Et]. injection Et as Et.
  cbn [title]. split; [now symmetry|].
  apply write_keeps_others; [apply in_or_app; right; now left|].
  cbn [title]. rewrite <- Et. intros En. apply sheet_name_inj in En. lia.
Qed.

Lemma next_alert_keeps_the_previous_sheet_witness :
  let out1 := chartink_webhook sample_env sample_request sample_world in
  let out2 := chartink_webhook sample_env sample_request (snd out1) in
  exists j1 kept first wb2,
    get_json sample_request = Returns j1
    /\ disk (snd out1) = Stored (kept ++ [first])
    /\ rows first = alert_rows sample_env (payload sample_request j1) 1
    /\ disk (snd out2) = Stored wb2
    /\ (exists stocks, fst (fst out2) = success_result stocks (1 + 1))
    /\ (forall s, In s (kept ++ [first]) ->
                  title s <> sheet_name_of (1 + 1) -> In s wb2)
    /\ ((forall wb, disk sample_world = Stored wb ->
                    title_free (sheet_name_of 1) wb) ->
        title first = sheet_name_of 1 /\ In first wb2).
Proof.
  apply (next_alert_keeps_the_previous_sheet sample_env sample_request
           sample_env sample_request sample_world); reflexivity.
Defined.

(** ** A server without Drive *)

Lemma upload_if_enabled_inactive env w :
  drive_active w = false -> upload_if_enabled env w = w.
Proof.
  unfold drive_active, upload_if_enabled.
  destruct (drive_handler (handler w)) as [d|]; [|reflexivity].
  now intros ->.
Qed.

Lemma add_stocks_inactive env stocks alert_data w :
  drive_active w = false ->
  let w' := snd (add_stocks_to_excel env stocks alert_data w) in
  console w' = console w /\ remote w' = remote w /\ drive_active w' = false.
Proof.
  intros H. unfold add_stocks_to_excel, open_workbook.
  destruct (negb (path_exists (disk w)));
    [destruct (baseline_save env) | destruct (load_workbook (disk w))];
    cbn [fst snd]; auto;
    (destruct (sheet_fault env); [cbn; auto|]);
    (destruct (final_save env); [|cbn; auto]);
    rewrite upload_if_enabled_inactive by exact H; cbn; auto.
Qed.

Lemma webhook_inactive env req w :
  drive_active w = false ->
  let w' := snd (chartink_webhook env req w) in
  console w' = console w /\ remote w' = remote w /\ drive_active w' = false.
Proof.
  intros H.
  destruct (webhook_cases env req w)
    as [(e & _ & E) | [(j & _ & E) | (j & a & _ & _ & _ & E)]];
    rewrite E; cbn [snd]; auto.
  destruct (process_cases env a w) as [[_ E'] | (d & _ & _ & E')];
    rewrite E'; cbn [snd]; auto.
  now apply add_stocks_inactive.
Qed.

Lemma serve_inactive requests :
  forall w,
    drive_active w = false ->
    let w' := snd (serve requests w) in
    console w' = console w /\ remote w' = remote w /\ drive_active w' = false.
Proof.
  induction requests as [|[env req] rest IH]; intros w H; [cbn; auto|].
  rewrite serve_cons. cbn [snd].
  destruct (webhook_inactive env req w H) as (Hc & Hr & Ha).
  destruct (IH _ Ha) as (Hc' & Hr' & Ha').
  repeat split; congruence.
Qed.

(** X13: when uploads are off - the flag is not set, or the Drive client
    was not built - no request of any run sends anything to the remote
    store or prints a Drive line, and uploads stay off.  A server started
    without the credential file, or whose client could not be built, is in
    that state: it never contacts the remote store. *)
Theorem no_drive_no_remote_traffic :
  (forall requests w,
      drive_active w = false ->
      let w' := snd (serve requests w) in
      console w' = console w /\ remote w' = remote w
      /\ drive_active w' = false)
  /\ (forall s f requests,
      credentials_exist s = false \/ (exists e, build_service s = Raises e) ->
      remote (snd (serve requests (startup s f))) = []).
Proof.
  split; [exact serve_inactive|].
  intros s f requests H.
  assert (Ha : drive_active (startup s f) = false).
  { unfold drive_active, startup, initialize_drive.
    destruct (credentials_exist s); [|reflexivity].
    destruct H as [H | (e & ->)]; [discriminate | reflexivity]. }
  destruct (serve_inactive requests _ Ha) as (_ & -> & _).
  unfold startup. now destruct (initialize_drive s).
Qed.

Lemma no_drive_no_remote_traffic_witness :
  remote
    (snd (serve [(sample_env, sample_request); (sample_env, sample_request)]
            (startup {| credentials_exist := false;
                        build_service := Returns tt |} Absent)))
  = [].
Proof.
  apply (proj2 no_drive_no_remote_traffic
           {| credentials_exist := false; build_service := Returns tt |}).
  left. reflexivity.
Defined.

(** ** Uploads *)

(** X14: the folder is resolved once.  An upload made while no folder id
    is known takes the id the resolution yields and keeps it, whether or
    not the transfer then goes through; an upload made with a folder id
    known leaves the Drive state as it is and sends nothing but file
    transfers. *)
Theorem folder_is_resolved_once :
  (forall api name d w i,
      service d = true ->
      folder_known d = false ->
      folder_resolves api i ->
      let d' := snd (fst (upload_file api name d w)) in
      folder_id d' = Some i
      /\ service d' = true
      /\ (i <> EmptyString -> folder_known d' = true))
  /\ (forall api name d w,
      service d = true ->
      folder_known d = true ->
      let out := upload_file api name d w in
      snd (fst out) = d
      /\ exists added,
           remote (snd out) = remote w ++ added
           /\ forallb is_file_transfer added = true).
Proof.
  split.
  - intros api name d w i Hs Hk Hr d'. subst d'.
    unfold upload_file, create_or_get_folder. rewrite Hs, Hk. cbn [negb].
    destruct Hr as [(rest & ->) | [-> ->]];
      repeat case_scrutinee; cbn; repeat split; try reflexivity;
      intros Hi; apply negb_true_iff; now apply String.eqb_neq.
  - intros api name d w Hs Hk out. subst out.
    unfold upload_file. rewrite Hs, Hk. cbn [negb].
    repeat case_scrutinee; cbn [fst snd print sent remote];
      (split; [reflexivity|]);
      first [ exists []; split; [now rewrite app_nil_r | reflexivity]
            | eexists [_]; split; reflexivity ].
Qed.

Lemma folder_is_resolved_once_witness :
  let api :=
    {| folders_list := Returns []; folders_create := Returns (Some "folder-9");
       files_list := Raises "HttpError 403";
       media_file_upload := Returns tt;
       files_update := Returns None; files_create := Returns None |} in
  let d := {| service := true; folder_id := None |} in
  let d' := snd (fst (upload_file api "Chartink_Workflow.xlsx" d
                        sample_world)) in
  (folder_id d' = Some "folder-9" /\ service d' = true
   /\ ("folder-9" <> EmptyString -> folder_known d' = true))
  /\ snd (fst (upload_file folder_failing_api "Chartink_Workflow.xlsx" d'
                 sample_world)) = d'.
Proof.
  split.
  - apply (proj1 folder_is_resolved_once); [reflexivity | reflexivity|].
    right. split; reflexivity.
  - apply (proj2 folder_is_resolved_once); reflexivity.
Defined.

(** X15: an upload in which no call raises makes exactly one file
    transfer and returns the id the store answers: an update of the first
    file the listing found, or, when the listing found none, the creation
    of the file under its name in the resolved folder (in no folder when
    none is known). *)
Theorem upload_updates_or_creates :
  forall api name d w,
    service d = true ->
    upload_exception api = None ->
    let out := upload_file api name d w in
    (forall i rest,
        files_list api = Returns (i :: rest) ->
        transfers (snd out) = transfers w ++ [FileUpdate i]
        /\ files_update api = Returns (fst (fst out)))
    /\ (files_list api = Returns [] ->
        transfers (snd out)
        = transfers w ++ [FileCreate name (parents_of (snd (fst out)))]
        /\ files_create api = Returns (fst (fst out))).
Proof.
  intros api name d w Hs He out. subst out.
  unfold upload_file, upload_exception, parents_of, transfers in *.
  rewrite Hs. cbn [negb].
  pose proof (create_or_get_folder_transfers api d w) as Hf.
  unfold transfers in Hf.
  destruct (create_or_get_folder api d w) as [[r d1] w1]. cbn [snd] in Hf.
  split.
  - intros i rest Hl. rewrite Hl in He |- *.
    destruct (media_file_upload api); [|discriminate].
    destruct (files_update api); [|discriminate].
    destruct (negb (folder_known d)); cbn [fst snd print sent remote];
      rewrite filter_app; cbn; rewrite ?Hf; now split.
  - intros Hl. rewrite Hl in He |- *.
    destruct (media_file_upload api); [|discriminate].
    destruct (files_create api); [|discriminate].
    destruct (negb (folder_known d)); cbn [fst snd print sent remote];
      rewrite filter_app; cbn; rewrite ?Hf; now split.
Qed.

Lemma upload_updates_or_creates_witness :
  let api :=
    {| folders_list := Returns ["folder-9"]; folders_create := Returns None;
       files_list := Returns ["file-3"; "file-4"];
       media_file_upload := Returns tt;
       files_update := Returns (Some "file-3");
       files_create := Returns None |} in
  let out := upload_file api "Chartink_Workflow.xlsx"
               {| service := true; folder_id := None |} sample_world in
  transfers (snd out) = transfers sample_world ++ [FileUpdate "file-3"]
  /\ files_update api = Returns (fst (fst out)).
Proof.
  apply (proj1 (upload_updates_or_creates
                  {| folders_list := Returns ["folder-9"];
                     folders_create := Returns None;
                     files_list := Returns ["file-3"; "file-4"];
                     media_file_upload := Returns tt;
                     files_update := Returns (Some "file-3");
                     files_create := Returns None |}
                  "Chartink_Workflow.xlsx"
                  {| service := true; folder_id := None |} sample_world
                  eq_refl eq_refl) "file-3" ["file-4"]).
  reflexivity.
Defined.

(** ** The download endpoint *)

(** X16: the download answers 404 with a structured error exactly when
    there is no file at the workbook's path; otherwise it sends whatever is
    at the path (it does not load it) under the name
    Chartink_Workflow.xlsx, or answers 500 with the message if sending
    raises.  After a request answered 200 the file sent is a workbook
    whose last sheet holds the rows of that request's alert: its symbols,
    numbered, with the iteration number the answer reports. *)
Theorem download_sends_the_current_file :
  (forall send f,
      (exists body, download_excel send f = Json body 404%Z) <-> f = Absent)
  /\ (forall send,
      download_excel send Absent
      = Json (PDict [("status", PStr "error");
                     ("message", PStr "Excel file not found")]) 404%Z)
  /\ (forall f u,
      f <> Absent ->
      exists mimetype,
        download_excel (Returns u) f
        = Attachment f "Chartink_Workflow.xlsx" mimetype)
  /\ (forall f e,
      f <> Absent -> download_excel (Raises e) f = Json (error_result e) 500%Z)
  /\ (forall env req w u,
      let n := current_iteration (handler w) in
      let out := chartink_webhook env req w in
      snd (fst out) = 200%Z ->
      exists j kept fresh mimetype,
        get_json req = Returns j
        /\ download_excel (Returns u) (disk (snd out))
           = Attachment (Stored (kept ++ [fresh])) "Chartink_Workflow.xlsx"
               mimetype
        /\ rows fresh = alert_rows env (payload req j) n
        /\ fst (fst out)
           = success_result (extract_stocks_from_alert (payload req j)) n).
Proof.
  split; [|split; [reflexivity|split; [|split]]].
  - intros send f. split.
    + intros (body & H). destruct f; [reflexivity| |];
        unfold download_excel in H; cbn in H; destruct send; discriminate.
    + intros ->. eexists. reflexivity.
  - intros f u Hf. eexists. destruct f; [contradiction| |]; reflexivity.
  - intros f e Hf. destruct f; [contradiction| |]; reflexivity.
  - intros env req w u n out Hc.
    destruct (webhook_success_disk env req w Hc)
      as (j & wb & Hj & _ & Hr & _ & Hd).
    fold out n in Hd, Hr.
    destruct (write_iteration_sheet_last (sheet_name_of n)
                (build_stock_data (alert_dict (payload req j)) (now env) n
                   (extract_stocks_from_alert (payload req j))) wb)
      as (kept & t & E & _).
    rewrite E in Hd. rewrite Hd. exists j, kept. do 2 eexists.
    split; [exact Hj|]. split; [reflexivity|]. split; [reflexivity | exact Hr].
Qed.

Lemma download_sends_the_current_file_witness :
  exists j kept fresh mimetype,
    get_json sample_request = Returns j
    /\ download_excel (Returns tt)
         (disk (snd (chartink_webhook sample_env sample_request sample_world)))
       = Attachment (Stored (kept ++ [fresh])) "Chartink_Workflow.xlsx"
           mimetype
    /\ rows fresh
       = alert_rows sample_env (payload sample_request j)
           (current_iteration (handler sample_world))
    /\ fst (fst (chartink_webhook sample_env sample_request sample_world))
       = success_result
           (extract_stocks_from_alert (payload sample_request j))
           (current_iteration (handler sample_world)).
Proof.
  apply (proj2 (proj2 (proj2 (proj2 download_sends_the_current_file)))
           sample_env sample_request sample_world tt).
  reflexivity.
Defined.

(** ** The port *)




(** ** File transfers over a run *)

Lemma upload_file_transfers_bound api name d w :
  exists added,
    transfers (snd (upload_file api name d w)) = transfers w ++ added
    /\ (List.length added <= 1)%nat.
Proof.
  unfold upload_file.
  pose proof (create_or_get_folder_transfers api d w) as Hf.
  destruct (create_or_get_folder api d w) as [[r d1] w1]. cbn [snd] in Hf.
  unfold transfers in *.
  destruct (negb (service d)); [exists []; split; [now rewrite app_nil_r | cbn; lia]|].
  destruct (negb (folder_known d));
    repeat case_scrutinee; cbn [fst snd print sent remote];
    rewrite ?filter_app, ?Hf; cbn [filter is_file_transfer];
    first [ exists []; split; [now rewrite app_nil_r | cbn; lia]
          | eexists [_]; split; [reflexivity | cbn; lia] ].
Qed.

Lemma upload_if_enabled_transfers_bound env w :
  exists added,
    transfers (upload_if_enabled env w) = transfers w ++ added
    /\ (List.length added <= 1)%nat.
Proof.
  unfold upload_if_enabled.
  destruct (drive_handler (handler w)) as [d|];
    [|exists []; split; [now rewrite app_nil_r | cbn; lia]].
  destruct (use_google_drive (handler w) && service d);
    [|exists []; split; [now rewrite app_nil_r | cbn; lia]].
  destruct (upload_file_transfers_bound (drive env) (excel_file (handler w))
              d w) as (added & H & Hl).
  destruct (upload_file (drive env) (excel_file (handler w)) d w)
    as [[r d'] w'].
  exists added. split; assumption.
Qed.

Lemma open_workbook_transfers env w :
  transfers (snd (open_workbook env w)) = transfers w.
Proof.
  unfold open_workbook.
  destruct (negb (path_exists (disk w))); [|reflexivity].
  destruct (baseline_save env); reflexivity.
Qed.

Lemma add_stocks_transfers_bound env stocks alert_data w :
  let out := add_stocks_to_excel env stocks alert_data w in
  exists added,
    transfers (snd out) = transfers w ++ added
    /\ (List.length added <= if is_success (fst out) then 1 else 0)%nat.
Proof.
  unfold add_stocks_to_excel.
  pose proof (open_workbook_transfers env w) as Ho.
  destruct (open_workbook env w) as [[wb|e] w1]; cbn [snd] in Ho.
  - destruct (sheet_fault env) as [e|].
    + exists []. cbn [fst snd]. rewrite Ho.
      split; [now rewrite app_nil_r | cbn; lia].
    + destruct (final_save env) as [|e remains].
      * match goal with
        | |- context [upload_if_enabled env ?x] =>
            destruct (upload_if_enabled_transfers_bound env x)
              as (added & H & Hl)
        end.
        exists added. cbn [fst snd]. rewrite is_success_success.
        split; [|exact Hl].
        unfold transfers in *. cbn [remote set_iteration set_disk] in *.
        now rewrite H, Ho.
      * exists []. cbn [fst snd]. unfold transfers in *.
        cbn [remote set_disk]. rewrite Ho.
        split; [now rewrite app_nil_r | cbn; lia].
  - exists []. cbn [fst snd]. rewrite Ho.
    split; [now rewrite app_nil_r | cbn; lia].
Qed.

Lemma webhook_transfers_bound env req w :
  let out := chartink_webhook env req w in
  exists added,
    transfers (snd out) = transfers w ++ added
    /\ (List.length added
        <= if (snd (fst out) =? 200)%Z then 1 else 0)%nat.
Proof.
  cbv zeta.
  destruct (webhook_cases env req w)
    as [(e & _ & E) | [(j & _ & E) | (j & a & _ & _ & _ & E)]];
    rewrite E; cbn [fst snd];
    try (exists []; split; [now rewrite app_nil_r | cbn; lia]).
  destruct (process_cases env a w) as [[_ E'] | (d & _ & _ & E')];
    rewrite E'; cbn [fst snd];
    [exists []; split; [now rewrite app_nil_r | cbn; lia]|].
  destruct (add_stocks_transfers_bound env (extract_stocks_from_alert a) d w)
    as (added & H & Hl).
  exists added. split; [exact H|].
  destruct (is_success
              (fst (add_stocks_to_excel env (extract_stocks_from_alert a)
                      d w))); exact Hl.
Qed.

(** X18: the workbook is sent to the remote store only by requests answered
    200, and at most once by each: a request with another answer transfers
    nothing, and over a run the number of file transfers made is at most
    the number of 200 answers. *)
Theorem transfers_only_for_accepted_alerts :
  (forall env req w,
      let out := chartink_webhook env req w in
      snd (fst out) <> 200%Z -> transfers (snd out) = transfers w)
  /\ (forall requests w,
      let out := serve requests w in
      exists added,
        transfers (snd out) = transfers w ++ added
        /\ (List.length added <= count_ok (fst out))%nat).
Proof.
  split.
  - intros env req w out Hc. subst out.
    destruct (webhook_transfers_bound env req w) as (added & H & Hl).
    apply Z.eqb_neq in Hc. rewrite Hc in Hl.
    destruct added; [now rewrite app_nil_r in H | cbn in Hl; lia].
  - induction requests as [|[env req] rest IH]; intros w out; subst out.
    + exists []. split; [now rewrite app_nil_r | cbn; lia].
    + rewrite serve_cons. cbn [fst snd]. rewrite count_ok_cons.
      destruct (webhook_transfers_bound env req w) as (a1 & H1 & L1).
      destruct (IH (snd (chartink_webhook env req w))) as (a2 & H2 & L2).
      exists (a1 ++ a2). split.
      * now rewrite H2, H1, app_assoc.
      * rewrite length_app.
        destruct (snd (fst (chartink_webhook env req w)) =? 200)%Z; lia.
Qed.

Lemma transfers_only_for_accepted_alerts_witness :
  transfers
    (snd (chartink_webhook sample_env
            {| get_json := Returns (PDict [("stocks", PInt 5)]); form := [] |}
            sample_world))
  = transfers sample_world.
Proof.
  apply (proj1 transfers_only_for_accepted_alerts sample_env
           {| get_json := Returns (PDict [("stocks", PInt 5)]); form := [] |}
           sample_world).
  discriminate.
Defined.
